(** * Mafa's Kitchen: the recipe feasibility engine of [chatbot.py]

    A shallow embedding of the unit and name normaliser
    ([parse_quantity_str], [normalize_name]), the feasibility scorer
    ([get_feasibility_score]), the ranking done inside the [chat] endpoint
    and the prompt builder ([build_chat_prompt]).

    Modelling conventions.
    - Python [str] is Rocq's [string] (8-bit characters); [lower] acts on
      the ASCII letters and the whitespace of [strip] is the ASCII
      whitespace of Python.
    - Python [float] is modelled by the exact rationals [Q]: every quantity
      the engine handles is a decimal literal times a conversion factor, and
      the score is a quotient of two list lengths.  Rounding, infinities and
      NaN of binary64 are outside that model; where rounding decides what
      the code does (the 80% test, the sum of the pantry rows of one name),
      the module [Binary64] runs the same path on binary64 floats.
    - An uncaught Python exception ([ValueError] of [float(...)]) is the
      [None] of an [option].
    - The Python [dict] [user_dict] is a [gmap string Q]; the set
      [VITAL_INGREDIENTS] is a [gset string]; [UNIT_MAP], whose iteration
      order decides the result, is an association list in declaration
      order.
    - The database is an explicit state that the fetch functions read.
    - The scorer over values takes the pantry as a list of rows; the module
      [Store] transcribes it over a store of list and dict objects reached
      through references, where a write to an object of the caller can be
      expressed. *)

From Stdlib Require Import ZArith QArith Qminmax Qabs Lqa.
From Stdlib Require Import Strings.Ascii Strings.String Numbers.DecimalString.
From Stdlib Require DecimalFacts DecimalPos DecimalN.
From Stdlib Require PrimFloat.
From stdpp Require Import base option list sorting strings gmap.

(** ** Python string primitives *)

Module PyStr.

Definition is_upper (c : ascii) : bool :=
  let n := nat_of_ascii c in (65 <=? n)%nat && (n <=? 90)%nat.

Definition lower_ascii (c : ascii) : ascii :=
  if is_upper c then ascii_of_nat (nat_of_ascii c + 32) else c.

(** [s.lower()] *)
Fixpoint lower (s : string) : string :=
  match s with
  | EmptyString => EmptyString
  | String c r => String (lower_ascii c) (lower r)
  end.

(** The characters [str.strip()] removes: tab, line feed, vertical tab,
    form feed, carriage return, the separators 0x1c to 0x1f and space. *)
Definition is_space (c : ascii) : bool :=
  let n := nat_of_ascii c in
  ((9 <=? n)%nat && (n <=? 13)%nat) || ((28 <=? n)%nat && (n <=? 32)%nat).

Fixpoint lstrip (s : string) : string :=
  match s with
  | EmptyString => EmptyString
  | String c r => if is_space c then lstrip r else s
  end.

Fixpoint rstrip (s : string) : string :=
  match s with
  | EmptyString => EmptyString
  | String c r =>
      match rstrip r with
      | EmptyString => if is_space c then EmptyString else String c EmptyString
      | r' => String c r'
      end
  end.

(** [s.strip()] *)
Definition strip (s : string) : string := rstrip (lstrip s).

(** [s.startswith(p)] *)
Fixpoint startswith (p s : string) : bool :=
  match p, s with
  | EmptyString, _ => true
  | String a p', String b s' => if Ascii.eqb a b then startswith p' s' else false
  | String _ _, EmptyString => false
  end.

(** [key in s] *)
Fixpoint contains (key s : string) : bool :=
  startswith key s ||
  match s with
  | EmptyString => false
  | String _ r => contains key r
  end.

(** [s.endswith(c)] for a one-character suffix. *)
Fixpoint endswith_char (c : ascii) (s : string) : bool :=
  match s with
  | EmptyString => false
  | String a EmptyString => Ascii.eqb a c
  | String _ r => endswith_char c r
  end.

(** [s[:-1]] *)
Fixpoint drop_last (s : string) : string :=
  match s with
  | EmptyString => EmptyString
  | String _ EmptyString => EmptyString
  | String a r => String a (drop_last r)
  end.

(** [s.replace(old, "")] for a non-empty [old]: the occurrences are found
    from the left and do not overlap.  [skip] counts the characters of an
    occurrence that are still to be dropped. *)
Fixpoint remove_go (old : string) (skip : nat) (s : string) : string :=
  match s with
  | EmptyString => EmptyString
  | String c r =>
      match skip with
      | S k => remove_go old k r
      | O =>
          if startswith old s then remove_go old (String.length old - 1) r
          else String c (remove_go old 0 r)
      end
  end.

Definition remove_all (old s : string) : string := remove_go old 0 s.

(** [sep.join(parts)] *)
Fixpoint join (sep : string) (parts : list string) : string :=
  match parts with
  | [] => EmptyString
  | [p] => p
  | p :: rest => p +:+ sep +:+ join sep rest
  end.

End PyStr.

(** ** Unit conversion and name normalisation *)

(** [UNIT_MAP], in the order of the dictionary literal (the order in which
    [UNIT_MAP.items()] yields its entries). *)
Definition UNIT_MAP : list (string * Q) :=
  [ ("g", 1); ("gram", 1); ("gram.", 1); ("grams", 1);
    ("tbsp", 15); ("tablespoon", 15); ("tsp", 5); ("teaspoon", 5);
    ("cup", 240); ("cups", 240); ("ml", 1);
    ("ltr", 1000); ("litre", 1000); ("liter", 1000);
    ("number", 1) ]%Q.

Module Regex.

Definition is_digit (c : ascii) : bool :=
  let n := nat_of_ascii c in (48 <=? n)%nat && (n <=? 57)%nat.

Definition is_dot (c : ascii) : bool := Ascii.eqb c ".".

(** The character class [[\d\.]]. *)
Definition in_class (c : ascii) : bool := is_digit c || is_dot c.

(** The longest prefix made of class characters (the greedy [+]). *)
Fixpoint take_class (s : string) : string :=
  match s with
  | EmptyString => EmptyString
  | String c r => if in_class c then String c (take_class r) else EmptyString
  end.

(** [re.search(r"([\d\.]+)", s)]: the leftmost match, [None] when no
    character of the class occurs; the result is [match.group(1)]. *)
Fixpoint search (s : string) : option string :=
  match s with
  | EmptyString => None
  | String c r => if in_class c then Some (take_class s) else search r
  end.

End Regex.

Module PyFloat.

(** State of the scan of a literal: digits read so far as an integer,
    number of digits after the point, points seen, digits seen. *)
Record scan := Scan { mant : Z; frac_digits : nat; dots : nat; digits : nat }.

Definition scan_char (st : scan) (c : ascii) : scan :=
  if Regex.is_digit c then
    {| mant := mant st * 10 + (Z.of_nat (nat_of_ascii c) - 48);
       frac_digits := if (0 <? dots st)%nat then S (frac_digits st) else frac_digits st;
       dots := dots st;
       digits := S (digits st) |}
  else
    {| mant := mant st; frac_digits := frac_digits st;
       dots := S (dots st); digits := digits st |}.

Fixpoint scan_string (st : scan) (s : string) : scan :=
  match s with
  | EmptyString => st
  | String c r => scan_string (scan_char st c) r
  end.

(** [float(text)] for a text made of digits and points, as the regular
    expression delivers it.  Python accepts such a text exactly when it
    has at least one digit and at most one point ("12", "1.5", "7.",
    ".5"); it raises [ValueError] on the others (".", "1.2.3", ".."). *)
Definition of_string (text : string) : option Q :=
  let st := scan_string (Scan 0 0 0 0) text in
  if (0 <? digits st)%nat && (dots st <=? 1)%nat
  then Some (mant st # Pos.of_nat (10 ^ frac_digits st))
  else None.

End PyFloat.

(** The numeric part of [parse_quantity_str]:
    [float(match.group(1)) if match else 1.0]. *)
Definition amount_of (qty_str : string) : option Q :=
  match Regex.search qty_str with
  | Some text => PyFloat.of_string text
  | None => Some 1%Q
  end.

(** The loop [for key, factor in UNIT_MAP.items()] together with the
    final [return amount]. *)
Fixpoint convert (units : list (string * Q)) (qty_str : string) (amount : Q) : Q :=
  match units with
  | [] => amount
  | (key, factor) :: rest =>
      if PyStr.contains key qty_str then (amount * factor)%Q
      else convert rest qty_str amount
  end.

Definition parse_quantity_str (qty_str : string) : option Q :=
  let qty_str := PyStr.strip (PyStr.lower qty_str) in
  amount ← amount_of qty_str;
  Some (convert UNIT_MAP qty_str amount).

Definition descriptors : list string :=
  [ "boiled"; "minced"; "chopped"; "powder"; "ground";
    "fresh"; "dried"; "sliced"; "shredded"; "optional" ].

Definition normalize_name (name : string) : string :=
  let name := PyStr.strip (PyStr.lower name) in
  let name := foldl (fun acc desc => PyStr.remove_all desc acc) name descriptors in
  let name := if PyStr.endswith_char "s" name then PyStr.drop_last name else name in
  PyStr.strip name.

(** ** Data model *)

(** A value of a MySQL [DECIMAL] column as the driver delivers it: a Python
    [Decimal] with a fixed number of decimal places; the value is
    [coefficient / 10 ^ places].  The column [ingredients.quantity] is
    [DECIMAL(10,2)], so [places] is 2 there. *)
Record Decimal := { coefficient : Z; places : nat }.

Definition str_N (n : N) : string := NilZero.string_of_uint (N.to_uint n).

Definition str_Z (z : Z) : string :=
  (if (z <? 0)%Z then "-" else "") +:+ str_N (Z.abs_N z).

(** [s.zfill(width)] for a string of digits. *)
Definition zfill (width : nat) (s : string) : string :=
  String.concat "" (replicate (width - String.length s) "0") +:+ s.

(** [str(d)] for a [Decimal] in plain (non-scientific) notation, which is
    the notation Python uses for the values of a [DECIMAL(10,2)] column. *)
Definition str_Decimal (d : Decimal) : string :=
  let a := Z.abs_N (coefficient d) in
  let p := (10 ^ N.of_nat (places d))%N in
  (if (coefficient d <? 0)%Z then "-" else "") +:+
  str_N (a / p) +:+
  (if (places d =? 0)%nat then "" else "." +:+ zfill (places d) (str_N (a mod p))).

(** A row of the table [ingredients] (the columns the engine selects). *)
Record PantryItem := { name : string; quantity : Decimal; unit : string }.

(** A row of [recipe_ingredients] as [fetch_recipe_ingredients] returns it. *)
Record RecipeIngredient := { item : string; qty : string }.

(** A row of the table [recipes]. *)
Record Recipe := {
  recipe_id : Z;
  title : string;
  taste : string;
  cuisine : string;
  prep_time : Z;
  description : string;
  instructions : string
}.

(** The three tables; [recipe_ingredients] keeps the [recipe_id] column next
    to each row. *)
Record Database := {
  ingredients : list PantryItem;
  recipes : list Recipe;
  recipe_ingredients : list (Z * RecipeIngredient)
}.

(** ** Database access: a state and error monad over the database *)

Definition DB (A : Type) : Type := Database → option A * Database.

Definition db_ret {A} (a : A) : DB A := fun d => (Some a, d).

Definition db_bind {A B} (m : DB A) (k : A → DB B) : DB B :=
  fun d =>
    match m d with
    | (Some a, d') => k a d'
    | (None, d') => (None, d')
    end.

(** An exception raised by pure code. *)
Definition db_lift {A} (o : option A) : DB A := fun d => (o, d).

#[global] Instance db_mret : MRet DB := @db_ret.
#[global] Instance db_mbind : MBind DB := fun A B k m => db_bind m k.

(** The rows [SELECT item, quantity FROM recipe_ingredients WHERE
    recipe_id = %s] selects. *)
Definition rows_of (d : Database) (rid : Z) : list RecipeIngredient :=
  map snd (filter (fun row => fst row = rid) (recipe_ingredients d)).

Definition fetch_recipe_ingredients (rid : Z) : DB (list RecipeIngredient) :=
  fun d => (Some (rows_of d rid), d).

(** [SELECT name, quantity, unit FROM ingredients] *)
Definition fetch_current_ingredients : DB (list PantryItem) :=
  fun d => (Some (ingredients d), d).

(** The rows [SELECT * FROM recipes] selects, with [WHERE taste = %s] when
    a taste is given. *)
Definition select_recipes (d : Database) (taste_filter : option string) : list Recipe :=
  match taste_filter with
  | Some t => filter (fun r => taste r = t) (recipes d)
  | None => recipes d
  end.

Definition fetch_recipes (taste_filter : option string) : DB (list Recipe) :=
  fun d => (Some (select_recipes d taste_filter), d).

(** ** The feasibility scorer *)

Definition VITAL_INGREDIENTS : gset string :=
  {[ "egg"; "flour"; "milk"; "pasta"; "ramen noodle"; "chicken"; "sugar" ]}.

Definition Qlt_bool (a b : Q) : bool := negb (Qle_bool b a).

(** Python's [max(a, b)]: [b] when [b > a], otherwise [a]. *)
Definition py_max (a b : Q) : Q := if Qlt_bool a b then b else a.

(** One round of the loop that fills [user_dict], over exact values;
    [Binary64.add_to_user_dict] is the same round on binary64 floats, where
    the sum of several rows of one name depends on their order. *)
Definition add_to_user_dict (user_dict : gmap string Q) (ing : PantryItem)
  : option (gmap string Q) :=
  let norm := normalize_name (name ing) in
  user_qty_grams ← parse_quantity_str (str_Decimal (quantity ing) +:+ unit ing);
  Some (<[norm := (default 0 (user_dict !! norm) + user_qty_grams)%Q]> user_dict).

Fixpoint build_user_dict (user_dict : gmap string Q) (user_ingredients : list PantryItem)
  : option (gmap string Q) :=
  match user_ingredients with
  | [] => Some user_dict
  | ing :: rest =>
      user_dict' ← add_to_user_dict user_dict ing;
      build_user_dict user_dict' rest
  end.

(** The vital check of the loop:
    [norm_ing in VITAL_INGREDIENTS and user_has < 1e-9]. *)
Definition vital_missing (user_dict : gmap string Q) (norm_ing : string) : bool :=
  bool_decide (norm_ing ∈ VITAL_INGREDIENTS)
  && Qlt_bool (default 0%Q (user_dict !! norm_ing)) 1e-9.

(** [(satisfied_count / needed_count) if needed_count > 0 else 1.0] *)
Definition coverage (satisfied_count needed_count : nat) : Q :=
  if (0 <? needed_count)%nat
  then (inject_Z (Z.of_nat satisfied_count) / inject_Z (Z.of_nat needed_count))%Q
  else 1%Q.

(** What the loop over [recipe_ings] ends with: the early [return] of the
    vital check, or the two accumulators after the last ingredient. *)
Inductive loop_end :=
| Returned (score : Q) (missing : list (string * Q))
| Finished (satisfied_count : nat) (missing_ings : list (string * Q)).

(** The loop over [recipe_ings], over exact values; [Binary64.score_loop]
    is the same loop on binary64 floats, where the product
    [needed_grams * 0.8] is rounded before it is compared. *)
Fixpoint score_loop (user_dict : gmap string Q) (recipe_ings : list RecipeIngredient)
    (satisfied_count : nat) (missing_ings : list (string * Q)) : option loop_end :=
  match recipe_ings with
  | [] => Some (Finished satisfied_count missing_ings)
  | r_ing :: rest =>
      let norm_ing := normalize_name (item r_ing) in
      needed_grams ← parse_quantity_str (qty r_ing);
      let user_has := default 0%Q (user_dict !! norm_ing) in
      if vital_missing user_dict norm_ing then
        Some (Returned 0 [(norm_ing, needed_grams)])
      else if Qle_bool (needed_grams * 0.8) user_has then
        score_loop user_dict rest (S satisfied_count) missing_ings
      else
        let shortfall := py_max 0 (needed_grams - user_has) in
        score_loop user_dict rest satisfied_count (missing_ings ++ [(norm_ing, shortfall)])
  end.

(** The body of [get_feasibility_score] once the rows of the recipe are
    fetched. *)
Definition feasibility (recipe_ings : list RecipeIngredient)
    (user_ingredients : list PantryItem) : option (Q * list (string * Q)) :=
  user_dict ← build_user_dict ∅ user_ingredients;
  let needed_count := length recipe_ings in
  r ← score_loop user_dict recipe_ings 0 [];
  match r with
  | Returned score missing => Some (score, missing)
  | Finished satisfied_count missing_ings =>
      let score := coverage satisfied_count needed_count in
      if Qlt_bool score 0.5 then Some (0%Q, missing_ings)
      else Some (score, missing_ings)
  end.

Definition get_feasibility_score (rid : Z) (user_ingredients : list PantryItem)
  : DB (Q * list (string * Q)) :=
  recipe_ings ← fetch_recipe_ingredients rid;
  db_lift (feasibility recipe_ings user_ingredients).

(** What one ingredient asks for: its canonical name and its grams. *)
Definition requirement (r_ing : RecipeIngredient) : option (string * Q) :=
  needed_grams ← parse_quantity_str (qty r_ing);
  Some (normalize_name (item r_ing), needed_grams).

(** The pantry covers at least 80% of a requirement. *)
Definition satisfied (user_dict : gmap string Q) (need : string * Q) : Prop :=
  Qle_bool (need.2 * 0.8) (default 0%Q (user_dict !! need.1)).

#[global] Instance satisfied_dec (user_dict : gmap string Q) (need : string * Q) :
  Decision (satisfied user_dict need).
Proof. unfold satisfied. apply _. Defined.

(** The entry of the missing list for a requirement that is not covered. *)
Definition shortfall_of (user_dict : gmap string Q) (need : string * Q) : string * Q :=
  (need.1, py_max 0 (need.2 - default 0%Q (user_dict !! need.1))).

(** The range of a returned score: exactly 0.0, or within [0.5, 1.0]. *)
Definition score_in_range (score : Q) : Prop :=
  score = 0%Q ∨ (0.5 <= score ∧ score <= 1)%Q.

(** ** The scorer in binary64

    The same path as above with Python's [float] arithmetic: every
    operation rounds to the nearest binary64 value, ties to even.  A
    decimal literal [m / 10^k] is converted by one division of two exactly
    represented integers, which is the correctly rounded conversion of
    [float(text)] when [m < 2^53] and [k <= 22]; a literal outside that
    range is reported as [Unmodelled] and not converted. *)

Module Binary64.

Import PrimFloat.

Inductive outcome (A : Type) : Type :=
| Returns (a : A)
| Raises
| Unmodelled.

Arguments Returns {A} a.
Arguments Raises {A}.
Arguments Unmodelled {A}.

#[global] Instance outcome_mbind : MBind outcome := fun A B k m =>
  match m with
  | Returns a => k a
  | Raises => Raises
  | Unmodelled => Unmodelled
  end.

(** An integer below [2^53] as a float: every intermediate value is an
    integer below [2^53], so no step rounds. *)
Fixpoint of_pos (p : positive) : float :=
  match p with
  | xH => 1%float
  | xO q => mul 2%float (of_pos q)
  | xI q => add (mul 2%float (of_pos q)) 1%float
  end.

Definition of_Z (z : Z) : float :=
  match z with
  | Z0 => 0%float
  | Zpos p => of_pos p
  | Zneg p => opp (of_pos p)
  end.

(** The decimal literal [m / 10^k], for [|m| < 2^53] and [k <= 22]. *)
Definition decimal (m : Z) (k : nat) : float :=
  div (of_Z m) (of_Z (10 ^ Z.of_nat k)).

(** [float(text)] *)
Definition of_string (text : string) : outcome float :=
  let st := PyFloat.scan_string (PyFloat.Scan 0 0 0 0) text in
  if (0 <? PyFloat.digits st)%nat && (PyFloat.dots st <=? 1)%nat then
    if (PyFloat.mant st <? 2 ^ 53)%Z && (PyFloat.frac_digits st <=? 22)%nat
    then Returns (decimal (PyFloat.mant st) (PyFloat.frac_digits st))
    else Unmodelled
  else Raises.

Definition amount_of (qty_str : string) : outcome float :=
  match Regex.search qty_str with
  | Some text => of_string text
  | None => Returns 1%float
  end.

(** A factor of [UNIT_MAP]; the factors are integers below [2^53]. *)
Definition factor_of (q : Q) : float := div (of_Z (Qnum q)) (of_Z (Zpos (Qden q))).

Fixpoint convert (units : list (string * Q)) (qty_str : string) (amount : float) : float :=
  match units with
  | [] => amount
  | (key, factor) :: rest =>
      if PyStr.contains key qty_str then mul amount (factor_of factor)
      else convert rest qty_str amount
  end.

Definition parse_quantity_str (qty_str : string) : outcome float :=
  let qty_str := PyStr.strip (PyStr.lower qty_str) in
  amount ← amount_of qty_str;
  Returns (convert UNIT_MAP qty_str amount).

(** Python's [max(a, b)]: [b] when [b > a], otherwise [a]. *)
Definition py_max (a b : float) : float := if ltb a b then b else a.

Definition add_to_user_dict (user_dict : gmap string float) (ing : PantryItem)
  : outcome (gmap string float) :=
  let norm := normalize_name (name ing) in
  user_qty_grams ← parse_quantity_str (str_Decimal (quantity ing) +:+ unit ing);
  Returns (<[norm := add (default 0%float (user_dict !! norm)) user_qty_grams]> user_dict).

Fixpoint build_user_dict (user_dict : gmap string float) (user_ingredients : list PantryItem)
  : outcome (gmap string float) :=
  match user_ingredients with
  | [] => Returns user_dict
  | ing :: rest =>
      user_dict' ← add_to_user_dict user_dict ing;
      build_user_dict user_dict' rest
  end.

(** [norm_ing in VITAL_INGREDIENTS and user_has < 1e-9] *)
Definition vital_missing (user_dict : gmap string float) (norm_ing : string) : bool :=
  bool_decide (norm_ing ∈ VITAL_INGREDIENTS)
  && ltb (default 0%float (user_dict !! norm_ing)) (decimal 1 9).

(** [(satisfied_count / needed_count) if needed_count > 0 else 1.0]; the
    quotient of two integers below [2^53] is the division of their
    floats. *)
Definition coverage (satisfied_count needed_count : nat) : float :=
  if (0 <? needed_count)%nat
  then div (of_Z (Z.of_nat satisfied_count)) (of_Z (Z.of_nat needed_count))
  else 1%float.

Inductive loop_end :=
| Returned (score : float) (missing : list (string * float))
| Finished (satisfied_count : nat) (missing_ings : list (string * float)).

Fixpoint score_loop (user_dict : gmap string float) (recipe_ings : list RecipeIngredient)
    (satisfied_count : nat) (missing_ings : list (string * float)) : outcome loop_end :=
  match recipe_ings with
  | [] => Returns (Finished satisfied_count missing_ings)
  | r_ing :: rest =>
      let norm_ing := normalize_name (item r_ing) in
      needed_grams ← parse_quantity_str (qty r_ing);
      let user_has := default 0%float (user_dict !! norm_ing) in
      if vital_missing user_dict norm_ing then
        Returns (Returned 0%float [(norm_ing, needed_grams)])
      else if leb (mul needed_grams (decimal 8 1)) user_has then
        score_loop user_dict rest (S satisfied_count) missing_ings
      else
        let shortfall := py_max 0%float (sub needed_grams user_has) in
        score_loop user_dict rest satisfied_count (missing_ings ++ [(norm_ing, shortfall)])
  end.

(** The body of [get_feasibility_score] once the rows of the recipe are
    fetched. *)
Definition feasibility (recipe_ings : list RecipeIngredient)
    (user_ingredients : list PantryItem) : outcome (float * list (string * float)) :=
  user_dict ← build_user_dict ∅ user_ingredients;
  let needed_count := length recipe_ings in
  r ← score_loop user_dict recipe_ings 0 [];
  match r with
  | Returned score missing => Returns (score, missing)
  | Finished satisfied_count missing_ings =>
      let score := coverage satisfied_count needed_count in
      if ltb score 0.5%float then Returns (0%float, missing_ings)
      else Returns (score, missing_ings)
  end.

End Binary64.

(** ** The scorer over a store of Python objects

    The lists and dicts [get_feasibility_score] works on are objects of a
    store, reached through references: the pantry it is given is a list of
    references to row dicts that its caller still holds, and a write
    through any reference is seen through all of them.  The scorer is
    transcribed statement by statement over that store; a [for] loop reads
    its list by index at every round, as Python's list iterator does, so
    the recursion is bounded by [fuel]. *)

Module Store.

Definition loc := positive.

Inductive value :=
| VStr (s : string)
| VDecimal (x : Decimal)
| VFloat (q : Q)
| VRef (l : loc)
| VPair (norm_ing : string) (grams : Q).

Inductive object :=
| ODict (fields : gmap string value)
| OList (items : list value).

Inductive error := ValueError | KeyError | TypeError | OutOfFuel.

Record world := World { heap : gmap loc object; database : Database }.

(** A computation: it runs in a world and ends with a value or an uncaught
    exception, in the world it leaves behind. *)
Definition M (A : Type) : Type := world → (error + A) * world.

Definition ret {A} (a : A) : M A := fun w => (inr a, w).

Definition bind {A B} (m : M A) (k : A → M B) : M B :=
  fun w =>
    match m w with
    | (inr a, w') => k a w'
    | (inl e, w') => (inl e, w')
    end.

Definition raise {A} (e : error) : M A := fun w => (inl e, w).

#[global] Instance store_mret : MRet M := @ret.
#[global] Instance store_mbind : MBind M := fun A B k m => bind m k.

(** A [ValueError] raised by pure code. *)
Definition lift {A} (o : option A) : M A :=
  match o with
  | Some a => mret a
  | None => raise ValueError
  end.

(** A new object: [{}], [[]], a row the cursor builds. *)
Definition alloc (o : object) : M loc :=
  fun w =>
    let l := fresh (dom (heap w)) in
    (inr l, World (<[l := o]> (heap w)) (database w)).

Definition load (l : loc) : M object :=
  fun w =>
    match heap w !! l with
    | Some o => (inr o, w)
    | None => (inl TypeError, w)
    end.

Definition store (l : loc) (o : object) : M () :=
  fun w => (inr (), World (<[l := o]> (heap w)) (database w)).

Definition as_ref (v : value) : M loc :=
  match v with VRef l => mret l | _ => raise TypeError end.

Definition as_str (v : value) : M string :=
  match v with VStr s => mret s | _ => raise TypeError end.

Definition as_float (v : value) : M Q :=
  match v with VFloat q => mret q | _ => raise TypeError end.

(** [f"{v}"] for the values a row holds. *)
Definition format (v : value) : M string :=
  match v with
  | VStr s => mret s
  | VDecimal x => mret (str_Decimal x)
  | _ => raise TypeError
  end.

(** [d[key]] *)
Definition getitem (d : loc) (key : string) : M value :=
  o ← load d;
  match o with
  | ODict fields =>
      match fields !! key with
      | Some v => mret v
      | None => raise KeyError
      end
  | OList _ => raise TypeError
  end.

(** [d.get(key, otherwise)] *)
Definition dict_get (d : loc) (key : string) (otherwise : value) : M value :=
  o ← load d;
  match o with
  | ODict fields => mret (default otherwise (fields !! key))
  | OList _ => raise TypeError
  end.

(** [d[key] = v] *)
Definition setitem (d : loc) (key : string) (v : value) : M () :=
  o ← load d;
  match o with
  | ODict fields => store d (ODict (<[key := v]> fields))
  | OList _ => raise TypeError
  end.

(** [l.append(v)] *)
Definition append (l : loc) (v : value) : M () :=
  o ← load l;
  match o with
  | OList items => store l (OList (items ++ [v]))
  | ODict _ => raise TypeError
  end.

(** [len(l)] *)
Definition len (l : loc) : M nat :=
  o ← load l;
  match o with
  | OList items => mret (length items)
  | ODict fields => mret (size fields)
  end.

(** What the iterator of a list yields at index [i]. *)
Definition item_at (l : loc) (i : nat) : M (option value) :=
  o ← load l;
  match o with
  | OList items => mret (items !! i)
  | ODict _ => raise TypeError
  end.

(** The rows of a cursor: a new dict for every row. *)
Fixpoint alloc_rows (rows : list RecipeIngredient) : M (list value) :=
  match rows with
  | [] => mret []
  | r :: rest =>
      l ← alloc (ODict {[ "item" := VStr (item r); "quantity" := VStr (qty r) ]});
      ls ← alloc_rows rest;
      mret (VRef l :: ls)
  end.

Definition fetch_recipe_ingredients (recipe_id : Z) : M loc :=
  fun w =>
    (rows ← alloc_rows (rows_of (database w) recipe_id);
     alloc (OList rows)) w.

(** The body of [for ing in user_ingredients]. *)
Definition add_row (user_dict : loc) (ing : value) : M () :=
  ing ← as_ref ing;
  name ← getitem ing "name" ≫= as_str;
  let norm := normalize_name name in
  quantity ← getitem ing "quantity" ≫= format;
  unit ← getitem ing "unit" ≫= format;
  user_qty_grams ← lift (parse_quantity_str (quantity +:+ unit));
  held ← dict_get user_dict norm (VFloat 0) ≫= as_float;
  setitem user_dict norm (VFloat (held + user_qty_grams)).

Fixpoint pantry_loop (fuel : nat) (user_ingredients user_dict : loc) (i : nat) : M () :=
  match fuel with
  | 0 => raise OutOfFuel
  | S fuel =>
      ing ← item_at user_ingredients i;
      match ing with
      | None => mret ()
      | Some ing =>
          _ ← add_row user_dict ing;
          pantry_loop fuel user_ingredients user_dict (S i)
      end
  end.

(** How the loop over [recipe_ings] ends: the early [return] with its new
    list, or the counter after the last ingredient. *)
Inductive loop_exit :=
| Return (score : Q) (missing : loc)
| Done (satisfied_count : nat).

Fixpoint recipe_loop (fuel : nat) (recipe_ings user_dict missing_ings : loc)
    (i satisfied_count : nat) : M loop_exit :=
  match fuel with
  | 0 => raise OutOfFuel
  | S fuel =>
      r_ing ← item_at recipe_ings i;
      match r_ing with
      | None => mret (Done satisfied_count)
      | Some r_ing =>
          r_ing ← as_ref r_ing;
          item ← getitem r_ing "item" ≫= as_str;
          let norm_ing := normalize_name item in
          quantity ← getitem r_ing "quantity" ≫= as_str;
          needed_grams ← lift (parse_quantity_str quantity);
          user_has ← dict_get user_dict norm_ing (VFloat 0) ≫= as_float;
          if bool_decide (norm_ing ∈ VITAL_INGREDIENTS) && Qlt_bool user_has 1e-9 then
            missing ← alloc (OList [VPair norm_ing needed_grams]);
            mret (Return 0 missing)
          else if Qle_bool (needed_grams * 0.8) user_has then
            recipe_loop fuel recipe_ings user_dict missing_ings (S i) (S satisfied_count)
          else
            let shortfall := py_max 0 (needed_grams - user_has) in
            _ ← append missing_ings (VPair norm_ing shortfall);
            recipe_loop fuel recipe_ings user_dict missing_ings (S i) satisfied_count
      end
  end.

Definition get_feasibility_score (fuel : nat) (recipe_id : Z) (user_ingredients : loc)
  : M (Q * loc) :=
  recipe_ings ← fetch_recipe_ingredients recipe_id;
  user_dict ← alloc (ODict ∅);
  _ ← pantry_loop fuel user_ingredients user_dict 0;
  needed_count ← len recipe_ings;
  missing_ings ← alloc (OList []);
  r ← recipe_loop fuel recipe_ings user_dict missing_ings 0 0;
  match r with
  | Return score missing => mret (score, missing)
  | Done satisfied_count =>
      let score := coverage satisfied_count needed_count in
      if Qlt_bool score 0.5 then mret (0%Q, missing_ings)
      else mret (score, missing_ings)
  end.

(** *** Reading the store *)

(** The pantry row a value refers to. *)
Definition read_row (h : gmap loc object) (v : value) : option PantryItem :=
  match v with
  | VRef l =>
      match h !! l with
      | Some (ODict fields) =>
          match fields !! "name", fields !! "quantity", fields !! "unit" with
          | Some (VStr n), Some (VDecimal q), Some (VStr u) =>
              Some {| name := n; quantity := q; unit := u |}
          | _, _, _ => None
          end
      | _ => None
      end
  | _ => None
  end.

(** The pantry a reference stands for. *)
Definition read_pantry (h : gmap loc object) (user_ingredients : loc)
  : option (list PantryItem) :=
  match h !! user_ingredients with
  | Some (OList items) => mapM (read_row h) items
  | _ => None
  end.

(** The recipe row a value refers to. *)
Definition read_recipe_row (h : gmap loc object) (v : value) : option RecipeIngredient :=
  match v with
  | VRef l =>
      match h !! l with
      | Some (ODict fields) =>
          match fields !! "item", fields !! "quantity" with
          | Some (VStr i), Some (VStr q) => Some {| item := i; qty := q |}
          | _, _ => None
          end
      | _ => None
      end
  | _ => None
  end.

Definition read_pair (v : value) : option (string * Q) :=
  match v with
  | VPair norm_ing grams => Some (norm_ing, grams)
  | _ => None
  end.

(** The missing list a reference stands for. *)
Definition read_missing (h : gmap loc object) (missing : loc) : option (list (string * Q)) :=
  match h !! missing with
  | Some (OList items) => mapM read_pair items
  | _ => None
  end.

(** The list object that holds a missing list. *)
Definition missing_object (missing_ings : list (string * Q)) : object :=
  OList ((fun e => VPair e.1 e.2) <$> missing_ings).

(** What the caller sees of a call: the exception, or the score and the
    content of the returned list. *)
Definition observe (r : (error + Q * loc) * world) : error + Q * list (string * Q) :=
  match r.1 with
  | inl e => inl e
  | inr (score, missing) =>
      match read_missing (heap r.2) missing with
      | Some missing_ings => inr (score, missing_ings)
      | None => inl TypeError
      end
  end.

(** The outcome of the scorer over values, as an outcome of a call. *)
Definition outcome (o : option (Q * list (string * Q))) : error + Q * list (string * Q) :=
  match o with
  | Some r => inr r
  | None => inl ValueError
  end.

(** Every object of [w] is in [w'] as it was, and the database is the
    same. *)
Definition untouched (w w' : world) : Prop :=
  database w' = database w ∧ ∀ l o, heap w !! l = Some o → heap w' !! l = Some o.

End Store.

(** ** Ranking *)

(** An entry of [scored_recipes]: the tuple [(recipe, score, missing_ings)]. *)
Definition Scored : Type := Recipe * Q * list (string * Q).

Definition score_of (e : Scored) : Q := snd (fst e).
Definition recipe_of (e : Scored) : Recipe := fst (fst e).
Definition missing_of (e : Scored) : list (string * Q) := snd e.

(** The loop of [chat] that fills [scored_recipes]. *)
Fixpoint score_candidates (candidate_recipes : list Recipe)
    (user_ingredients : list PantryItem) (scored_recipes : list Scored)
  : DB (list Scored) :=
  match candidate_recipes with
  | [] => mret scored_recipes
  | recipe :: rest =>
      r ← get_feasibility_score (recipe_id recipe) user_ingredients;
      let '(score, missing_ings) := r in
      if Qlt_bool 0 score
      then score_candidates rest user_ingredients
             (scored_recipes ++ [(recipe, score, missing_ings)])
      else score_candidates rest user_ingredients scored_recipes
  end.

(** [scored_recipes.sort(key=lambda x: x[1], reverse=True)].  Python's sort
    is stable, also with [reverse=True]; the result of a stable sort is
    determined by the input, and it is computed here by insertion from the
    right, an entry going in front of the entries whose score is not
    greater than its own. *)
Fixpoint insert_desc (x : Scored) (l : list Scored) : list Scored :=
  match l with
  | [] => [x]
  | y :: ys =>
      if Qlt_bool (score_of x) (score_of y) then y :: insert_desc x ys
      else x :: l
  end.

Definition sort_desc (l : list Scored) : list Scored := foldr insert_desc [] l.

(** [scored_recipes] of [chat] after the sort. *)
Definition sorted_candidates (candidate_recipes : list Recipe)
    (user_ingredients : list PantryItem) : DB (list Scored) :=
  scored_recipes ← score_candidates candidate_recipes user_ingredients [];
  mret (sort_desc scored_recipes).

(** The ranked shortlist: [scored_recipes[:3]] after the sort. *)
Definition rank (candidate_recipes : list Recipe)
    (user_ingredients : list PantryItem) : DB (list Scored) :=
  scored_recipes ← sorted_candidates candidate_recipes user_ingredients;
  mret (take 3 scored_recipes).

(** The order of the sorted list: no entry is followed by one of a greater
    score. *)
Definition by_score_desc (a b : Scored) : Prop := (score_of b <= score_of a)%Q.

(** The entries that survive the test [score > 0.0]. *)
Definition positive_score (e : Scored) : Prop := Qlt_bool 0 (score_of e).

(** The entries whose score equals [v]. *)
Definition has_score (v : Q) (e : Scored) : Prop := Qeq_bool (score_of e) v.

#[global] Instance positive_score_dec (e : Scored) : Decision (positive_score e).
Proof. unfold positive_score. apply _. Defined.

#[global] Instance has_score_dec (v : Q) (e : Scored) : Decision (has_score v e).
Proof. unfold has_score. apply _. Defined.

(** An entry carries the result of the scorer for its recipe. *)
Definition scored_by (d : Database) (user_ingredients : list PantryItem) (e : Scored) : Prop :=
  (get_feasibility_score (recipe_id (recipe_of e)) user_ingredients d).1
  = Some (score_of e, missing_of e).

(** ** The prompt builder *)

Definition nl : string := String "010" "".

(** Round to the nearest integer, ties to even, a non-negative rational. *)
Definition round_half_even (a : Q) : N :=
  let n := Z.to_N (Qnum a) in
  let d := Npos (Qden a) in
  let q := (n / d)%N in
  let r := (n mod d)%N in
  match (2 * r ?= d)%N with
  | Lt => q
  | Gt => (q + 1)%N
  | Eq => if N.even q then q else (q + 1)%N
  end.

(** The format specification [.{prec}f]. *)
Definition format_f (prec : nat) (x : Q) : string :=
  let scale := (10 ^ N.of_nat prec)%N in
  let n := round_half_even (Qabs x * inject_Z (Z.of_N scale)) in
  (if Qlt_bool x 0 then "-" else "") +:+
  str_N (n / scale) +:+
  (if (prec =? 0)%nat then "" else "." +:+ zfill prec (str_N (n mod scale))).

Definition pantry_line (ing : PantryItem) : string :=
  "- " +:+ name ing +:+ ": " +:+ str_Decimal (quantity ing) +:+ " " +:+ unit ing.

Definition ingredient_text (i : RecipeIngredient) : string :=
  item i +:+ " (" +:+ qty i +:+ ")".

Definition missing_text (m : string * Q) : string :=
  fst m +:+ " (~" +:+ format_f 1 (snd m) +:+ "g short)".

Definition missing_str (missing_ings : list (string * Q)) : string :=
  match missing_ings with
  | [] => ""
  | _ => "Missing or short ingredients: " +:+ PyStr.join ", " (map missing_text missing_ings)
  end.

(** The f-string [text_block] of one entry, given the rows of its recipe. *)
Definition text_block (recipe_ing : list RecipeIngredient) (e : Scored) : string :=
  let recipe := recipe_of e in
  nl +:+ "Recipe: " +:+ title recipe +:+ nl +:+
  " - Taste: " +:+ taste recipe +:+ nl +:+
  " - Cuisine: " +:+ cuisine recipe +:+ nl +:+
  " - Prep Time: " +:+ str_Z (prep_time recipe) +:+ " minutes" +:+ nl +:+
  " - Description: " +:+ description recipe +:+ nl +:+
  " - Ingredients: " +:+ PyStr.join ", " (map ingredient_text recipe_ing) +:+ nl +:+
  " - Instructions: " +:+ instructions recipe +:+ nl +:+
  " - Fitness Score: " +:+ format_f 2 (score_of e) +:+ nl +:+
  " - " +:+ missing_str (missing_of e) +:+ nl.

(** The loop of [build_chat_prompt] that fills [recipes_text_blocks]. *)
Fixpoint text_blocks (top_recipes : list Scored) (recipes_text_blocks : list string)
  : DB (list string) :=
  match top_recipes with
  | [] => mret recipes_text_blocks
  | e :: rest =>
      recipe_ing ← fetch_recipe_ingredients (recipe_id (recipe_of e));
      text_blocks rest (recipes_text_blocks ++ [text_block recipe_ing e])
  end.

Definition prompt_head : string :=
  "You are an AI assistant that suggests recipes based on user preferences and available ingredients."
  +:+ nl +:+ nl +:+ "User's request: ".

Definition prompt_pantry : string :=
  nl +:+ nl +:+ "User currently has these ingredients (approx in grams):" +:+ nl.

Definition prompt_recipes : string :=
  nl +:+ nl +:+ "Here are some recipes that partly or fully match the user's ingredients:" +:+ nl.

Definition prompt_tail : string :=
  nl +:+ nl +:+ "Only recommend recipes with a good fitness score (above ~0.5) and " +:+ nl +:+
  "avoid those missing vital ingredients entirely. Suggest how to handle small shortages." +:+ nl +:+
  "Respond in a friendly and concise way.".

Definition build_chat_prompt (user_input : string) (user_ingredients : list PantryItem)
    (top_recipes : list Scored) : DB string :=
  let user_ing_text := PyStr.join nl (map pantry_line user_ingredients) in
  recipes_text_blocks ← text_blocks top_recipes [];
  let all_recipes_str := PyStr.join (nl +:+ nl) recipes_text_blocks in
  let prompt :=
    nl +:+ prompt_head +:+ user_input +:+ prompt_pantry +:+ user_ing_text +:+
    prompt_recipes +:+ all_recipes_str +:+ prompt_tail +:+ nl in
  mret (PyStr.strip prompt).

(** The block of an entry, with the rows the database holds for its
    recipe. *)
Definition block_of (d : Database) (e : Scored) : string :=
  text_block (rows_of d (recipe_id (recipe_of e))) e.

(** ** The chat endpoint *)

(** [jsonify({"assistant": text}), status] *)
Record Response := { assistant : string; status : nat }.

Definition greeting : Response :=
  {| assistant := "Hi, what can I help you cook today?"; status := 200 |}.

Definition no_suitable : Response :=
  {| assistant := "I couldn't find any suitable recipes given your pantry."; status := 200 |}.

(** ["Sweet" if is_sweet else None] with [is_sweet = "sweet" in
    user_input.lower()]. *)
Definition taste_of_request (user_input : string) : option string :=
  let is_sweet := PyStr.contains "sweet" (PyStr.lower user_input) in
  if is_sweet then Some "Sweet" else None.

Section Chat.

(** The text-generation call [model.generate_content(prompt).text]. *)
Variable generate_content : string → string.

Definition chat (user_input : string) : DB Response :=
  let user_input := PyStr.strip user_input in
  if String.eqb user_input "" then mret greeting
  else
    user_ingredients ← fetch_current_ingredients;
    candidate_recipes ← fetch_recipes (taste_of_request user_input);
    scored_recipes ← sorted_candidates candidate_recipes user_ingredients;
    match scored_recipes with
    | [] => mret no_suitable
    | _ =>
        let top_recipes := take 3 scored_recipes in
        prompt ← build_chat_prompt user_input user_ingredients top_recipes;
        mret {| assistant := PyStr.strip (generate_content prompt); status := 200 |}
    end.

End Chat.

(** ** Reference notions used by the properties *)

(** [UNIT_MAP] without the entries "gram", "gram.", "grams" and "cups". *)
Definition LIVE_UNITS : list (string * Q) :=
  [ ("g", 1); ("tbsp", 15); ("tablespoon", 15); ("tsp", 5); ("teaspoon", 5);
    ("cup", 240); ("ml", 1);
    ("ltr", 1000); ("litre", 1000); ("liter", 1000);
    ("number", 1) ]%Q.

(** An entry of the missing list comes from an ingredient of the recipe,
    and its shortfall lies between 20% and 100% of the grams required. *)
Definition entry_of (recipe_ings : list RecipeIngredient) (e : string * Q) : Prop :=
  ∃ r g, r ∈ recipe_ings ∧ parse_quantity_str (qty r) = Some g
         ∧ e.1 = normalize_name (item r) ∧ (0.2 * g <= e.2 ∧ e.2 <= g)%Q.

(** The value of a text of decimal digits, read from the left onto [acc]. *)
Fixpoint digits_value (acc : Z) (s : string) : Z :=
  match s with
  | EmptyString => acc
  | String c r => digits_value (acc * 10 + (Z.of_nat (nat_of_ascii c) - 48)) r
  end.

Fixpoint digits_only (s : string) : bool :=
  match s with
  | EmptyString => true
  | String c r => Regex.is_digit c && digits_only r
  end.

(** The characters of a rendered number: digits, the point and the sign. *)
Definition numeric_char (c : ascii) : bool := Regex.in_class c || Ascii.eqb c "-".

Fixpoint numeric_text (s : string) : bool :=
  match s with
  | EmptyString => true
  | String c r => numeric_char c && numeric_text r
  end.

(** The value of a decimal numeral of the standard library, read from the
    left onto [acc]. *)
Fixpoint uint_value (acc : Z) (u : Decimal.uint) : Z :=
  match u with
  | Decimal.Nil => acc
  | Decimal.D0 l => uint_value (acc * 10) l
  | Decimal.D1 l => uint_value (acc * 10 + 1) l
  | Decimal.D2 l => uint_value (acc * 10 + 2) l
  | Decimal.D3 l => uint_value (acc * 10 + 3) l
  | Decimal.D4 l => uint_value (acc * 10 + 4) l
  | Decimal.D5 l => uint_value (acc * 10 + 5) l
  | Decimal.D6 l => uint_value (acc * 10 + 6) l
  | Decimal.D7 l => uint_value (acc * 10 + 7) l
  | Decimal.D8 l => uint_value (acc * 10 + 8) l
  | Decimal.D9 l => uint_value (acc * 10 + 9) l
  end.

(** The values of the column [unit ENUM('gram','litre','number')]. *)
Definition ENUM_UNITS : list string := [ "gram"; "litre"; "number" ].

(** The factor [UNIT_MAP] gives to a unit of the column. *)
Definition unit_factor (u : string) : Q := if String.eqb u "litre" then 1000%Q else 1%Q.

(** The grams a pantry row stands for: the magnitude of its quantity times
    the factor of its unit. *)
Definition row_grams (ing : PantryItem) : Q :=
  ((Z.abs (coefficient (quantity ing)) # Pos.of_nat (10 ^ places (quantity ing)))
   * unit_factor (unit ing))%Q.

(** A row as the table [ingredients] can hold it: [quantity DECIMAL(10,2)]
    and [unit ENUM('gram','litre','number')]. *)
Definition schema_row (ing : PantryItem) : Prop :=
  places (quantity ing) = 2 ∧ unit ing ∈ ENUM_UNITS.

(** The grams the pantry holds under a canonical name: the sum over the
    rows with that name. *)
Fixpoint held_grams (k : string) (user_ingredients : list PantryItem) : Q :=
  match user_ingredients with
  | [] => 0%Q
  | ing :: rest =>
      if decide (normalize_name (name ing) = k)
      then (row_grams ing + held_grams k rest)%Q
      else held_grams k rest
  end.

(** ** Sample data *)

Module Sample.

Definition ri (i q : string) : RecipeIngredient := {| item := i; qty := q |}.

Definition stock (n : string) (whole : Z) (places : nat) (u : string) : PantryItem :=
  {| name := n;
     quantity := {| coefficient := whole * 10 ^ Z.of_nat places; places := places |};
     unit := u |}.

(** The pantry of the pancake scenario; [places] is 2 for the values of
    the [DECIMAL(10,2)] column ("6.00") and 0 for plain integers ("6"). *)
Definition pantry (places : nat) : list PantryItem :=
  [ stock "egg" 6 places "number";
    stock "flour" 500 places "gram";
    stock "sugar" 50 places "gram" ].

Definition pancakes : list RecipeIngredient :=
  [ ri "egg" "2"; ri "flour" "300g"; ri "sugar" "100g"; ri "milk" "200ml" ].

Definition recipe (i : Z) (t : string) : Recipe :=
  {| recipe_id := i; title := t; taste := "Sweet"; cuisine := "Home";
     prep_time := 10; description := "Quick"; instructions := "Mix and cook." |}.

Definition for_recipe (i : Z) (rows : list RecipeIngredient) : list (Z * RecipeIngredient) :=
  map (fun r => (i, r)) rows.

(** 1: a vital ingredient is absent; 2: fully covered; 3 and 5: half
    covered; 4: a third covered; 6: fully covered; 7: two vital
    ingredients are absent. *)
Definition kitchen : Database :=
  {| ingredients := pantry 2;
     recipes := [ recipe 1 "Pancakes"; recipe 2 "Omelette"; recipe 3 "Salted eggs";
                  recipe 4 "Syrup"; recipe 5 "Peppered eggs"; recipe 6 "Boiled eggs";
                  recipe 7 "Custard" ];
     recipe_ingredients :=
       for_recipe 1 pancakes
       ++ for_recipe 2 [ ri "egg" "2"; ri "sugar" "10g" ]
       ++ for_recipe 3 [ ri "egg" "2"; ri "salt" "10g" ]
       ++ for_recipe 4 [ ri "egg" "2"; ri "salt" "10g"; ri "Sugars" "1 cup" ]
       ++ for_recipe 5 [ ri "egg" "2"; ri "pepper" "10g" ]
       ++ for_recipe 6 [ ri "Boiled Eggs" "2" ]
       ++ for_recipe 7 [ ri "milk" "200ml"; ri "chicken" "2" ] |}.

Definition kitchen_dict : gmap string Q :=
  default ∅ (build_user_dict ∅ (pantry 2)).

(** A pantry that holds [hundredths / 100] gram of salt. *)
Definition salt (hundredths : Z) : list PantryItem :=
  [ {| name := "salt"; quantity := {| coefficient := hundredths; places := 2 |};
       unit := "gram" |} ].

(** Three rows of the same canonical name: 0.10, 0.20 and 0.30 gram. *)
Definition salts : list PantryItem :=
  [ {| name := "salt"; quantity := {| coefficient := 10; places := 2 |}; unit := "gram" |};
    {| name := "Salts"; quantity := {| coefficient := 20; places := 2 |}; unit := "gram" |};
    {| name := "fresh salt"; quantity := {| coefficient := 30; places := 2 |};
       unit := "gram" |} ].

(** The dict of a pantry row. *)
Definition row_object (ing : PantryItem) : Store.object :=
  Store.ODict {[ "name" := Store.VStr (name ing);
                 "quantity" := Store.VDecimal (quantity ing);
                 "unit" := Store.VStr (unit ing) ]}.

(** The pantry of the pancake scenario in a store: the list at 1, its rows
    at 2, 3 and 4. *)
Definition shelf : gmap Store.loc Store.object :=
  {[ 1%positive := Store.OList [Store.VRef 2%positive; Store.VRef 3%positive; Store.VRef 4%positive];
     2%positive := row_object (stock "egg" 6 2 "number");
     3%positive := row_object (stock "flour" 500 2 "gram");
     4%positive := row_object (stock "sugar" 50 2 "gram") ]}.

(** The same pantry in another store: the list at 5, its rows at 9, 6 and
    7, next to objects of other owners at 1 and 2. *)
Definition cupboard : gmap Store.loc Store.object :=
  {[ 5%positive := Store.OList [Store.VRef 9%positive; Store.VRef 6%positive; Store.VRef 7%positive];
     9%positive := row_object (stock "egg" 6 2 "number");
     6%positive := row_object (stock "flour" 500 2 "gram");
     7%positive := row_object (stock "sugar" 50 2 "gram");
     1%positive := Store.OList [Store.VRef 9%positive];
     2%positive := Store.ODict ∅ ]}.

(** A database that holds the rows of "Syrup" under another id and
    nothing else. *)
Definition annex : Database :=
  {| ingredients := []; recipes := [];
     recipe_ingredients :=
       for_recipe 9 [ ri "egg" "2"; ri "salt" "10g"; ri "Sugars" "1 cup" ] |}.

End Sample.

(** * Properties *)

(** ** Strings *)

Section StringFacts.

Lemma startswith_char (c a : ascii) (r : string) :
  PyStr.startswith (String c "") (String a r) = Ascii.eqb c a.
Proof. simpl. destruct (Ascii.eqb c a); reflexivity. Qed.

(** A character that is not whitespace survives [lstrip]. *)
Lemma contains_char_lstrip (c : ascii) (s : string) :
  PyStr.is_space c = false →
  PyStr.contains (String c "") s = true →
  PyStr.contains (String c "") (PyStr.lstrip s) = true.
Proof.
  intros Hc. induction s as [|a r IH]; [done|].
  intros H. cbn [PyStr.lstrip].
  destruct (PyStr.is_space a) eqn:Ha; [|exact H].
  apply IH. cbn [PyStr.contains] in H. rewrite startswith_char in H.
  destruct (Ascii.eqb c a) eqn:E; [|exact H].
  apply Ascii.eqb_eq in E. congruence.
Qed.

(** ... and [rstrip]. *)
Lemma contains_char_rstrip (c : ascii) (s : string) :
  PyStr.is_space c = false →
  PyStr.contains (String c "") s = true →
  PyStr.contains (String c "") (PyStr.rstrip s) = true.
Proof.
  intros Hc. induction s as [|a r IH]; [done|].
  intros H. cbn [PyStr.contains] in H. rewrite startswith_char in H.
  cbn [PyStr.rstrip].
  destruct (Ascii.eqb c a) eqn:E.
  - apply Ascii.eqb_eq in E. subst a. rewrite Hc.
    destruct (PyStr.rstrip r); cbn [PyStr.contains]; rewrite startswith_char;
      rewrite Ascii.eqb_refl; reflexivity.
  - simpl in H. specialize (IH H).
    destruct (PyStr.rstrip r) as [|b r'] eqn:Er; [discriminate IH|].
    cbn [PyStr.contains]. rewrite startswith_char, E. exact IH.
Qed.

Lemma contains_char_strip (c : ascii) (s : string) :
  PyStr.is_space c = false →
  PyStr.contains (String c "") s = true →
  PyStr.contains (String c "") (PyStr.strip s) = true.
Proof.
  intros Hc H. unfold PyStr.strip.
  by apply contains_char_rstrip, contains_char_lstrip.
Qed.

End StringFacts.

(** ** The normaliser *)

(** C7 as stated fails: one trailing "s" is removed from "fresh tomatoes",
    which leaves "tomatoe", not "tomato". *)
Lemma C7_canonicalize_tomato_counterexample :
  ¬ (normalize_name "boiled eggs" = normalize_name "egg"
     ∧ normalize_name "egg" = "egg"
     ∧ normalize_name "Fresh Tomatoes" = "tomato").
Proof. intros (_ & _ & H). vm_compute in H. discriminate H. Qed.

(** C7, amended: [normalize_name] sends "boiled eggs" and "egg" to "egg",
    and "Fresh Tomatoes" to "tomatoe" (lowercase and trim, delete the
    descriptor words as substrings, drop a single trailing "s", trim). *)
Theorem C7_canonicalize_examples :
  normalize_name "boiled eggs" = normalize_name "egg"
  ∧ normalize_name "egg" = "egg"
  ∧ normalize_name "Fresh Tomatoes" = "tomatoe".
Proof. repeat split; vm_compute; reflexivity. Qed.

Section ParseFacts.

Lemma scan_string_mant_nonneg (s : string) :
  ∀ st, (0 <= PyFloat.mant st)%Z → (0 <= PyFloat.mant (PyFloat.scan_string st s))%Z.
Proof.
  induction s as [|c r IH]; intros st Hst; [exact Hst|].
  cbn [PyFloat.scan_string]. apply IH. unfold PyFloat.scan_char.
  destruct (Regex.is_digit c) eqn:Hd; cbn [PyFloat.mant]; [|exact Hst].
  unfold Regex.is_digit in Hd. apply andb_true_iff in Hd as [Hd _].
  apply Nat.leb_le in Hd. lia.
Qed.

Lemma of_string_nonneg (text : string) (q : Q) :
  PyFloat.of_string text = Some q → (0 <= q)%Q.
Proof.
  unfold PyFloat.of_string. destruct (_ && _); [|discriminate].
  intros [= <-]. unfold Qle. cbn [Qnum Qden].
  pose proof (scan_string_mant_nonneg text (PyFloat.Scan 0 0 0 0)) as H.
  cbn [PyFloat.mant] in H. lia.
Qed.

Lemma convert_nonneg (units : list (string * Q)) (qty_str : string) (amount : Q) :
  Forall (fun kf => (0 <= kf.2)%Q) units → (0 <= amount)%Q →
  (0 <= convert units qty_str amount)%Q.
Proof.
  intros Hu Ha. induction Hu as [|[key factor] rest Hf _ IH]; [exact Ha|].
  cbn [convert]. destruct (PyStr.contains key qty_str); [|exact IH].
  by apply Qmult_le_0_compat.
Qed.

(** Whenever [parse_quantity_str] returns, its result is not negative. *)
Lemma parse_quantity_str_nonneg (qty_str : string) (q : Q) :
  parse_quantity_str qty_str = Some q → (0 <= q)%Q.
Proof.
  unfold parse_quantity_str.
  destruct (amount_of _) as [amount|] eqn:Ha; [|discriminate].
  cbn [mbind option_bind]. intros H.
  assert (Hq : convert UNIT_MAP (PyStr.strip (PyStr.lower qty_str)) amount = q)
    by congruence.
  rewrite <- Hq. apply convert_nonneg.
  - unfold UNIT_MAP. repeat constructor; discriminate.
  - unfold amount_of in Ha. destruct (Regex.search _) as [text|].
    + by apply of_string_nonneg in Ha.
    + injection Ha as <-. discriminate.
Qed.

(** The regular expression finds nothing exactly when the string has
    neither a digit nor a point; the amount is then 1.0. *)
Lemma search_none (s : string) :
  Regex.search s = None
  ↔ PyStr.contains "." s = false
    ∧ ∀ c, Regex.is_digit c = true → PyStr.contains (String c "") s = false.
Proof.
  induction s as [|a r IH]; [done|].
  cbn [Regex.search PyStr.contains]. unfold Regex.in_class, Regex.is_dot.
  rewrite startswith_char, (Ascii.eqb_sym "." a).
  destruct (Regex.is_digit a) eqn:Hd.
  - cbn [orb]. split; [discriminate|]. intros [_ H]. specialize (H a Hd).
    cbn [PyStr.contains] in H. rewrite startswith_char, Ascii.eqb_refl in H. discriminate H.
  - destruct (Ascii.eqb a ".") eqn:Hdot; cbn [orb].
    + split; [discriminate|]. intros [H _]. discriminate H.
    + rewrite IH. split.
      * intros [H1 H2]. split; [exact H1|]. intros c Hc.
        cbn [PyStr.contains]. rewrite startswith_char.
        destruct (Ascii.eqb c a) eqn:E; [|by apply H2].
        apply Ascii.eqb_eq in E. congruence.
      * intros [H1 H2]. split; [exact H1|]. intros c Hc. specialize (H2 c Hc).
        cbn [PyStr.contains] in H2. rewrite startswith_char in H2.
        by apply orb_false_iff in H2 as [_ H2].
Qed.

End ParseFacts.

(** C6: [parse_quantity_str] is meant never to fail, but the class
    [[\d\.]+] also matches texts that [float] rejects: a lone point or a
    text with two points.  On those the function raises [ValueError]. *)
Theorem C6_parse_quantity_raises :
  parse_quantity_str "approx. 2 cups" = None
  ∧ parse_quantity_str "." = None
  ∧ parse_quantity_str "1.2.3 g" = None.
Proof. repeat split; vm_compute; reflexivity. Qed.

(** C10: when the lowercased quantity string contains the letter "g", the
    result is the extracted amount times 1.0, the factor of the first entry
    of [UNIT_MAP], whatever other unit keywords the string contains (and
    the call raises exactly when the extraction of the amount does). *)
Theorem C10_letter_g_shadows_units (qty_str : string) :
  PyStr.contains "g" (PyStr.lower qty_str) = true →
  parse_quantity_str qty_str
  = (fun amount => (amount * 1)%Q) <$> amount_of (PyStr.strip (PyStr.lower qty_str)).
Proof.
  intros Hg. unfold parse_quantity_str.
  apply (contains_char_strip "g") in Hg; [|reflexivity].
  destruct (amount_of _) as [amount|]; [|reflexivity].
  cbn [mbind option_bind fmap option_map option_fmap UNIT_MAP convert].
  rewrite Hg. reflexivity.
Qed.

Lemma C10_letter_g_shadows_units_witness :
  parse_quantity_str "2 Cups granulated sugar"
  = (fun amount => (amount * 1)%Q)
      <$> amount_of (PyStr.strip (PyStr.lower "2 Cups granulated sugar")).
Proof. apply (C10_letter_g_shadows_units "2 Cups granulated sugar"). reflexivity. Defined.

(** ** The scorer *)

Section ScorerFacts.

Lemma Qlt_bool_iff (a b : Q) : Qlt_bool a b = true ↔ (a < b)%Q.
Proof.
  unfold Qlt_bool. rewrite negb_true_iff, <- not_true_iff_false, Qle_bool_iff.
  split; [apply Qnot_le_lt | apply Qlt_not_le].
Qed.

Lemma Qlt_bool_false_iff (a b : Q) : Qlt_bool a b = false ↔ (b <= a)%Q.
Proof.
  unfold Qlt_bool. rewrite negb_false_iff. apply Qle_bool_iff.
Qed.

(** Python's [max] agrees with the mathematical maximum. *)
Lemma py_max_Qmax (a b : Q) : (py_max a b == Qmax a b)%Q.
Proof.
  unfold py_max. destruct (Qlt_bool a b) eqn:E.
  - apply Qlt_bool_iff in E. symmetry. apply Q.max_r. by apply Qlt_le_weak.
  - apply Qlt_bool_false_iff in E. symmetry. by apply Q.max_l.
Qed.

(** The scorer reads the database and leaves it as it was. *)
Lemma get_feasibility_score_run (rid : Z) (user_ingredients : list PantryItem)
    (d : Database) :
  get_feasibility_score rid user_ingredients d
  = (feasibility (rows_of d rid) user_ingredients, d).
Proof. reflexivity. Qed.

Variable user_dict : gmap string Q.

(** One round of the loop, for an ingredient whose quantity parses and
    that does not trigger the vital check. *)
Lemma score_loop_step (r_ing : RecipeIngredient) (rest : list RecipeIngredient)
    (needed_grams : Q) (satisfied_count : nat) (missing_ings : list (string * Q)) :
  parse_quantity_str (qty r_ing) = Some needed_grams →
  vital_missing user_dict (normalize_name (item r_ing)) = false →
  let norm_ing := normalize_name (item r_ing) in
  let user_has := default 0%Q (user_dict !! norm_ing) in
  score_loop user_dict (r_ing :: rest) satisfied_count missing_ings
  = if Qle_bool (needed_grams * 0.8) user_has
    then score_loop user_dict rest (S satisfied_count) missing_ings
    else score_loop user_dict rest satisfied_count
           (missing_ings ++ [(norm_ing, py_max 0 (needed_grams - user_has))]).
Proof.
  intros Hp Hv. cbn [score_loop]. rewrite Hp. cbn [mbind option_bind].
  rewrite Hv. reflexivity.
Qed.

(** The counter only grows, by at most one per ingredient. *)
Lemma score_loop_count (recipe_ings : list RecipeIngredient) :
  ∀ s m s' m',
    score_loop user_dict recipe_ings s m = Some (Finished s' m') →
    s ≤ s' ≤ s + length recipe_ings.
Proof.
  induction recipe_ings as [|r rest IH]; intros s m s' m' H.
  - cbn in H. injection H as -> _. cbn. lia.
  - cbn [score_loop] in H.
    destruct (parse_quantity_str (qty r)) as [g|]; [|discriminate H].
    cbn [mbind option_bind] in H.
    destruct (vital_missing _ _); [discriminate H|].
    destruct (Qle_bool _ _); apply IH in H; cbn [length]; lia.
Qed.

(** The early return of the loop is the score 0.0. *)
Lemma score_loop_returned (recipe_ings : list RecipeIngredient) :
  ∀ s m score missing,
    score_loop user_dict recipe_ings s m = Some (Returned score missing) →
    score = 0%Q.
Proof.
  induction recipe_ings as [|r rest IH]; intros s m score missing H.
  - discriminate H.
  - cbn [score_loop] in H.
    destruct (parse_quantity_str (qty r)) as [g|]; [|discriminate H].
    cbn [mbind option_bind] in H.
    destruct (vital_missing _ _); [by injection H as <- _|].
    destruct (Qle_bool _ _); by apply IH in H.
Qed.

(** The loop stops at the first ingredient that fails the vital check. *)
Lemma score_loop_vital (pre : list RecipeIngredient) (r_ing : RecipeIngredient)
    (post : list RecipeIngredient) (needed_grams : Q) :
  Forall (fun r => is_Some (parse_quantity_str (qty r))
                   ∧ vital_missing user_dict (normalize_name (item r)) = false) pre →
  vital_missing user_dict (normalize_name (item r_ing)) = true →
  parse_quantity_str (qty r_ing) = Some needed_grams →
  ∀ s m, score_loop user_dict (pre ++ r_ing :: post) s m
         = Some (Returned 0 [(normalize_name (item r_ing), needed_grams)]).
Proof.
  intros Hpre Hv Hp. induction Hpre as [|r pre [[g Hg] Hr] _ IH]; intros s m.
  - cbn [app score_loop]. rewrite Hp. cbn [mbind option_bind]. by rewrite Hv.
  - rewrite <- app_comm_cons, (score_loop_step _ _ g) by assumption.
    cbv zeta. destruct (Qle_bool _ _); apply IH.
Qed.

(** A full run of the loop, when no ingredient fails the vital check and
    every quantity is numeric: the counter is the number of covered
    requirements and the missing list holds the others, in recipe order. *)
Lemma score_loop_finished (recipe_ings : list RecipeIngredient)
    (needs : list (string * Q)) :
  Forall2 (fun r need => requirement r = Some need) recipe_ings needs →
  Forall (fun need => vital_missing user_dict need.1 = false) needs →
  ∀ s m, score_loop user_dict recipe_ings s m
         = Some (Finished
                   (s + length (filter (satisfied user_dict) needs))
                   (m ++ (shortfall_of user_dict
                            <$> filter (fun need => ¬ satisfied user_dict need) needs))).
Proof.
  induction 1 as [|r need rs needs Hr _ IH]; intros Hv s m.
  - cbn. by rewrite Nat.add_0_r, app_nil_r.
  - apply Forall_cons in Hv as [Hv Hvs]. unfold requirement in Hr.
    destruct (parse_quantity_str (qty r)) as [g|] eqn:Hg; [|discriminate Hr].
    cbn [mbind option_bind] in Hr. injection Hr as <-. cbn [fst snd] in *.
    rewrite (score_loop_step r rs g) by assumption. cbv zeta.
    rewrite !filter_cons.
    destruct (decide (satisfied user_dict (normalize_name (item r), g))) as [Hs|Hs].
    + rewrite decide_False by (intros Hn; by apply Hn).
      apply Is_true_true in Hs. cbn [fst snd] in Hs. rewrite Hs.
      rewrite IH by assumption. cbn [length]. do 2 f_equal. lia.
    + rewrite decide_True by done.
      apply Is_true_false in Hs. cbn [fst snd] in Hs. rewrite Hs.
      rewrite IH by assumption. cbn [length fmap list_fmap].
      by rewrite <- app_assoc.
Qed.

End ScorerFacts.

Lemma coverage_bounds (s n : nat) : s ≤ n → (0 <= coverage s n ∧ coverage s n <= 1)%Q.
Proof.
  intros Hsn. unfold coverage. destruct (0 <? n)%nat eqn:Hn; [|split; discriminate].
  apply Nat.ltb_lt in Hn.
  assert (Hpos : (0 < inject_Z (Z.of_nat n))%Q).
  { change 0%Q with (inject_Z 0). rewrite <- Zlt_Qlt. lia. }
  split.
  - apply Qle_shift_div_l; [exact Hpos|]. rewrite Qmult_0_l.
    change 0%Q with (inject_Z 0). rewrite <- Zle_Qle. lia.
  - apply Qle_shift_div_r; [exact Hpos|]. rewrite Qmult_1_l.
    rewrite <- Zle_Qle. lia.
Qed.

(** C1 as stated fails when two vital ingredients are absent: the single
    entry of the result is the first of them in recipe order, so the claim
    does not hold of the second. *)
Lemma C1_vital_short_circuit_counterexample :
  ¬ (∀ (d : Database) (rid : Z) (user_ingredients : list PantryItem)
       (user_dict : gmap string Q) (r_ing : RecipeIngredient) (needed_grams : Q),
       build_user_dict ∅ user_ingredients = Some user_dict →
       r_ing ∈ rows_of d rid →
       vital_missing user_dict (normalize_name (item r_ing)) = true →
       parse_quantity_str (qty r_ing) = Some needed_grams →
       (get_feasibility_score rid user_ingredients d).1
       = Some (0%Q, [(normalize_name (item r_ing), needed_grams)])).
Proof.
  intros H.
  specialize (H Sample.kitchen 7%Z (Sample.pantry 2) Sample.kitchen_dict
                (Sample.ri "chicken" "2") 2%Q).
  assert (Hrun : (get_feasibility_score 7 (Sample.pantry 2) Sample.kitchen).1
                 = Some (0%Q, [("milk", 200%Q)])) by (vm_compute; reflexivity).
  rewrite Hrun in H.
  enough (Some (0%Q, [("milk", 200%Q)])
          = Some (0%Q, [(normalize_name "chicken", 2%Q)])) as E
    by (vm_compute in E; discriminate E).
  apply H.
  - vm_compute. reflexivity.
  - assert (Hrows : rows_of Sample.kitchen 7
                    = [Sample.ri "milk" "200ml"; Sample.ri "chicken" "2"])
      by (vm_compute; reflexivity).
    rewrite Hrows. repeat constructor.
  - vm_compute. reflexivity.
  - vm_compute. reflexivity.
Qed.

(** C1, amended: let [r_ing] be the first ingredient of the recipe, in
    recipe order, whose canonical name is vital and of which the pantry map
    holds less than 1e-9 grams (the quantities of the pantry and of the
    ingredients up to [r_ing] being numeric).  Then the scorer returns
    exactly 0.0 with the one-entry list [(canonical name of r_ing, grams
    required of r_ing)], whatever the stock of the other ingredients and
    whatever follows [r_ing] in the recipe; the database is left as is. *)
Theorem C1_vital_short_circuit (d : Database) (rid : Z)
    (user_ingredients : list PantryItem) (user_dict : gmap string Q)
    (pre : list RecipeIngredient) (r_ing : RecipeIngredient)
    (post : list RecipeIngredient) (needed_grams : Q) :
  rows_of d rid = pre ++ r_ing :: post →
  build_user_dict ∅ user_ingredients = Some user_dict →
  Forall (fun r => is_Some (parse_quantity_str (qty r))
                   ∧ vital_missing user_dict (normalize_name (item r)) = false) pre →
  vital_missing user_dict (normalize_name (item r_ing)) = true →
  parse_quantity_str (qty r_ing) = Some needed_grams →
  get_feasibility_score rid user_ingredients d
  = (Some (0%Q, [(normalize_name (item r_ing), needed_grams)]), d).
Proof.
  intros Hrows Hdict Hpre Hv Hp.
  rewrite get_feasibility_score_run, Hrows. f_equal.
  unfold feasibility. rewrite Hdict. cbn [mbind option_bind].
  by rewrite (score_loop_vital user_dict pre r_ing post needed_grams).
Qed.

Lemma C1_vital_short_circuit_witness :
  get_feasibility_score 1 (Sample.pantry 2) Sample.kitchen
  = (Some (0%Q, [(normalize_name "milk", 200%Q)]), Sample.kitchen).
Proof.
  apply (C1_vital_short_circuit Sample.kitchen 1 (Sample.pantry 2) Sample.kitchen_dict
           [Sample.ri "egg" "2"; Sample.ri "flour" "300g"; Sample.ri "sugar" "100g"]
           (Sample.ri "milk" "200ml") [] 200%Q).
  - vm_compute. reflexivity.
  - vm_compute. reflexivity.
  - repeat constructor; vm_compute; eauto.
  - vm_compute. reflexivity.
  - vm_compute. reflexivity.
Defined.

(** C2: every score the scorer returns is exactly 0.0 or lies in
    [0.5, 1.0].  When the loop runs to its end, the returned score is 0.0 if
    the coverage is below 0.5 and the coverage otherwise, and in both cases
    the returned list is the accumulated missing list. *)
Theorem C2_score_zero_or_at_least_half (d : Database) (rid : Z)
    (user_ingredients : list PantryItem) (score : Q) (missing : list (string * Q)) :
  (get_feasibility_score rid user_ingredients d).1 = Some (score, missing) →
  score_in_range score
  ∧ ∀ user_dict satisfied_count missing_ings,
      build_user_dict ∅ user_ingredients = Some user_dict →
      score_loop user_dict (rows_of d rid) 0 [] = Some (Finished satisfied_count missing_ings) →
      let c := coverage satisfied_count (length (rows_of d rid)) in
      missing = missing_ings
      ∧ ((c < 0.5)%Q → score = 0%Q)
      ∧ ((0.5 <= c)%Q → score = c).
Proof.
  rewrite get_feasibility_score_run. cbn [fst]. unfold feasibility.
  destruct (build_user_dict ∅ user_ingredients) as [user_dict|]; [|discriminate].
  cbn [mbind option_bind].
  destruct (score_loop user_dict (rows_of d rid) 0 []) as [[sc ms|sat ms]|] eqn:Hloop;
    [| |discriminate]; cbn [mbind option_bind].
  - intros [= <- <-]. split.
    + left. by apply score_loop_returned in Hloop.
    + intros ? ? ? [= <-]. rewrite Hloop. discriminate.
  - intros H.
    pose proof (score_loop_count _ _ _ _ _ _ Hloop) as [_ Hle]. cbn in Hle.
    pose proof (coverage_bounds _ _ Hle) as [_ Hc1].
    destruct (Qlt_bool (coverage sat (length (rows_of d rid))) 0.5) eqn:Hhalf;
      injection H as <- <-.
    + apply Qlt_bool_iff in Hhalf. split; [by left|].
      intros ? ? ? [= <-]. rewrite Hloop. intros [= <- <-]. cbv zeta.
      split; [done|]. split; [done|]. intros Hge. by apply Qle_not_lt in Hge.
    + apply Qlt_bool_false_iff in Hhalf. split; [by right|].
      intros ? ? ? [= <-]. rewrite Hloop. intros [= <- <-]. cbv zeta.
      split; [done|]. split; [|done]. intros Hlt. by apply Qlt_not_le in Hlt.
Qed.

Lemma C2_score_zero_or_at_least_half_witness :
  score_in_range 0
  ∧ ∀ user_dict satisfied_count missing_ings,
      build_user_dict ∅ (Sample.pantry 2) = Some user_dict →
      score_loop user_dict (rows_of Sample.kitchen 4) 0 []
      = Some (Finished satisfied_count missing_ings) →
      let c := coverage satisfied_count (length (rows_of Sample.kitchen 4)) in
      [("salt", 10%Q); ("sugar", 190.00%Q)] = missing_ings
      ∧ ((c < 0.5)%Q → 0%Q = 0%Q)
      ∧ ((0.5 <= c)%Q → 0%Q = c).
Proof.
  apply (C2_score_zero_or_at_least_half Sample.kitchen 4 (Sample.pantry 2)).
  vm_compute. reflexivity.
Defined.

(** C3: at exactly 80% of the requirement the code does not always count
    the ingredient as satisfied.  A recipe asks for "3g" of salt and the
    pantry holds 2.40 gram, which is 0.8 times 3: in binary64 the product
    [3.0 * 0.8] is 2.4000000000000004, greater than 2.4, so the test
    [user_has >= needed_grams * 0.8] fails, salt goes to the missing list
    with the shortfall 0.6000000000000001 and the score is 0.0.  Over exact
    values the same call returns the score 1 and an empty missing list.
    With "4g" and 3.20 gram, again exactly 80%, the product is exact and
    the ingredient is satisfied. *)
Theorem C3_exactly_eighty_percent_is_not_always_satisfied :
  PrimFloat.ltb (Binary64.decimal 240 2)
    (PrimFloat.mul (Binary64.decimal 3 0) (Binary64.decimal 8 1)) = true
  ∧ Binary64.feasibility [Sample.ri "salt" "3g"] (Sample.salt 240)
    = Binary64.Returns
        (Binary64.decimal 0 0, [("salt", Binary64.decimal 6000000000000001 16)])
  ∧ feasibility [Sample.ri "salt" "3g"] (Sample.salt 240) = Some (1%Q, [])
  ∧ Binary64.feasibility [Sample.ri "salt" "4g"] (Sample.salt 320)
    = Binary64.Returns (Binary64.decimal 1 0, []).
Proof. repeat split; vm_compute; reflexivity. Qed.

(** C5: with the pantry egg 6 number, flour 500 gram, sugar 50 gram and the
    recipe egg "2", flour "300g", sugar "100g", milk "200ml", the scorer
    returns the score 0.0 and the missing list [("milk", 200.0)], both when
    the quantities are rendered as the database delivers them ("6.00") and
    as plain integers ("6"). *)
Theorem C5_pancakes_scenario (d : Database) (rid : Z) :
  rows_of d rid = Sample.pancakes →
  get_feasibility_score rid (Sample.pantry 2) d = (Some (0%Q, [("milk", 200%Q)]), d)
  ∧ get_feasibility_score rid (Sample.pantry 0) d = (Some (0%Q, [("milk", 200%Q)]), d).
Proof.
  intros Hrows. rewrite !get_feasibility_score_run, Hrows.
  split; f_equal; vm_compute; reflexivity.
Qed.

Lemma C5_pancakes_scenario_witness :
  get_feasibility_score 1 (Sample.pantry 2) Sample.kitchen
  = (Some (0%Q, [("milk", 200%Q)]), Sample.kitchen)
  ∧ get_feasibility_score 1 (Sample.pantry 0) Sample.kitchen
    = (Some (0%Q, [("milk", 200%Q)]), Sample.kitchen).
Proof. apply (C5_pancakes_scenario Sample.kitchen 1). vm_compute. reflexivity. Defined.

(** ** The scorer over the store *)

Section StoreFacts.

Lemma fresh_lookup (h : gmap Store.loc Store.object) : h !! fresh (dom h) = None.
Proof. apply not_elem_of_dom, is_fresh. Qed.

Lemma read_row_weaken (h h' : gmap Store.loc Store.object) (v : Store.value) (ing : PantryItem) :
  h ⊆ h' → Store.read_row h v = Some ing → Store.read_row h' v = Some ing.
Proof.
  intros Hsub. unfold Store.read_row. destruct v as [| | |l|]; try done.
  destruct (h !! l) as [o|] eqn:E; [|done].
  by rewrite (lookup_weaken _ _ _ _ E Hsub).
Qed.

Lemma read_recipe_row_weaken (h h' : gmap Store.loc Store.object) (v : Store.value)
    (r : RecipeIngredient) :
  h ⊆ h' → Store.read_recipe_row h v = Some r → Store.read_recipe_row h' v = Some r.
Proof.
  intros Hsub. unfold Store.read_recipe_row. destruct v as [| | |l|]; try done.
  destruct (h !! l) as [o|] eqn:E; [|done].
  by rewrite (lookup_weaken _ _ _ _ E Hsub).
Qed.

Lemma read_pantry_weaken (h h' : gmap Store.loc Store.object) (ref : Store.loc)
    (pantry : list PantryItem) :
  h ⊆ h' → Store.read_pantry h ref = Some pantry → Store.read_pantry h' ref = Some pantry.
Proof.
  intros Hsub. unfold Store.read_pantry.
  destruct (h !! ref) as [[|items]|] eqn:E; try done.
  rewrite (lookup_weaken _ _ _ _ E Hsub). rewrite !mapM_Some.
  intros H. eapply Forall2_impl; [exact H|].
  intros v ing. by apply read_row_weaken.
Qed.

Lemma read_missing_object (h : gmap Store.loc Store.object) (l : Store.loc)
    (m : list (string * Q)) :
  h !! l = Some (Store.missing_object m) → Store.read_missing h l = Some m.
Proof.
  intros Hl. unfold Store.read_missing. rewrite Hl. cbn [Store.missing_object].
  apply mapM_Some. clear Hl.
  induction m as [|[n g] m IH]; cbn [fmap list_fmap]; constructor; done.
Qed.

Lemma bind_run {A B} (m : Store.M A) (k : A → Store.M B) (w w' : Store.world) (a : A) :
  m w = (inr a, w') → (m ≫= k) w = k a w'.
Proof. intros H. unfold mbind, Store.store_mbind, Store.bind. by rewrite H. Qed.

Lemma bind_raise {A B} (m : Store.M A) (k : A → Store.M B) (w w' : Store.world)
    (e : Store.error) :
  m w = (inl e, w') → (m ≫= k) w = (inl e, w').
Proof. intros H. unfold mbind, Store.store_mbind, Store.bind. by rewrite H. Qed.

Lemma item_at_run (h : gmap Store.loc Store.object) (db : Database) (l : Store.loc)
    (items : list Store.value) (i : nat) :
  h !! l = Some (Store.OList items) →
  Store.item_at l i (Store.World h db) = (inr (items !! i), Store.World h db).
Proof.
  intros Hl. unfold Store.item_at, Store.load, mbind, Store.store_mbind, Store.bind.
  cbn [Store.heap]. by rewrite Hl.
Qed.

(** The cursor builds a new dict for every row and touches nothing else. *)
Lemma alloc_rows_run (rows : list RecipeIngredient) (db : Database) :
  ∀ h, ∃ items h',
    Store.alloc_rows rows (Store.World h db) = (inr items, Store.World h' db)
    ∧ h ⊆ h'
    ∧ Forall2 (fun v r => Store.read_recipe_row h' v = Some r) items rows.
Proof.
  induction rows as [|r rest IH]; intros h.
  - exists [], h. done.
  - cbn [Store.alloc_rows].
    unfold mbind, Store.store_mbind, Store.bind, Store.alloc.
    cbn [Store.heap Store.database].
    set (l := fresh (dom h)). set (h1 := <[l := _]> h).
    destruct (IH h1) as (items & h' & Hrun & Hsub & Hread). rewrite Hrun.
    exists (Store.VRef l :: items), h'. split; [done|]. split.
    + trans h1; [|done]. apply insert_subseteq, fresh_lookup.
    + constructor; [|done]. unfold Store.read_recipe_row.
      rewrite (lookup_weaken h1 h' l _ (lookup_insert_eq _ _ _) Hsub).
      by destruct r.
Qed.

(** One round of the pantry loop writes the dict [user_dict] and nothing
    else. *)
Lemma add_row_run (h : gmap Store.loc Store.object) (db : Database) (ud : Store.loc)
    (d : gmap string Q) (v : Store.value) (ing : PantryItem) :
  Store.read_row h v = Some ing →
  h !! ud = Some (Store.ODict (Store.VFloat <$> d)) →
  Store.add_row ud v (Store.World h db)
  = match add_to_user_dict d ing with
    | Some d' => (inr (), Store.World (<[ud := Store.ODict (Store.VFloat <$> d')]> h) db)
    | None => (inl Store.ValueError, Store.World h db)
    end.
Proof.
  unfold Store.read_row. destruct v as [| | |l|]; try done.
  destruct (h !! l) as [[fields|]|] eqn:Hl; try done.
  destruct (fields !! "name") as [[n| | | |]|] eqn:Hn; try done.
  destruct (fields !! "quantity") as [[|q| | |]|] eqn:Hq; try done.
  destruct (fields !! "unit") as [[u| | | |]|] eqn:Hu; try done.
  intros [= <-] Hud.
  unfold Store.add_row, Store.getitem, Store.dict_get, Store.setitem, Store.load, Store.store,
    Store.as_ref, Store.as_str, Store.as_float, Store.format, add_to_user_dict.
  unfold mbind at 1 2 3 4 5 6 7 8 9 10 11 12 13 14 15. 
  unfold Store.store_mbind, Store.bind, mret, Store.store_mret, Store.ret.
  cbn [Store.heap Store.database name quantity unit].
  repeat (first [rewrite Hl | rewrite Hn | rewrite Hq | rewrite Hu];
          cbn [Store.heap Store.database]).
  destruct (parse_quantity_str _) as [g|]; cbn [Store.lift Store.raise option_bind mbind];
    [|done].
  cbn [Store.heap Store.database mret Store.store_mret Store.ret].
  rewrite Hud. cbn [Store.heap Store.database option_bind mbind option_bind].
  rewrite lookup_fmap, fmap_insert.
  destruct (d !! _);
    cbn [from_option id fmap option_fmap option_map Store.heap Store.database];
    by rewrite Hud.
Qed.

(** The pantry loop reads the pantry and writes [user_dict] only; it ends
    as the fold over the rows does. *)
Lemma pantry_loop_run (hb : gmap Store.loc Store.object) (db : Database)
    (ref ud : Store.loc) (items : list Store.value) (pantry : list PantryItem) :
  hb !! ref = Some (Store.OList items) →
  Forall2 (fun v ing => Store.read_row hb v = Some ing) items pantry →
  hb !! ud = None →
  ∀ fuel i h d,
    hb ⊆ h →
    h !! ud = Some (Store.ODict (Store.VFloat <$> d)) →
    i ≤ length pantry →
    length pantry < fuel + i →
    match build_user_dict d (drop i pantry) with
    | Some d' =>
        Store.pantry_loop fuel ref ud i (Store.World h db)
        = (inr (), Store.World (<[ud := Store.ODict (Store.VFloat <$> d')]> h) db)
    | None =>
        ∃ d', Store.pantry_loop fuel ref ud i (Store.World h db)
              = (inl Store.ValueError,
                 Store.World (<[ud := Store.ODict (Store.VFloat <$> d')]> h) db)
    end.
Proof.
  intros Href Hrows Hfresh.
  induction fuel as [|fuel IH]; intros i h d Hsub Hud Hi Hfuel; [lia|].
  cbn [Store.pantry_loop].
  rewrite (bind_run _ _ _ _ _ (item_at_run h db ref items i (lookup_weaken _ _ _ _ Href Hsub))).
  destruct (items !! i) as [v|] eqn:Hv.
  - destruct (Forall2_lookup_l _ _ _ _ _ Hrows Hv) as (ing & Hing & Hread).
    rewrite (drop_S _ _ _ Hing). cbn [build_user_dict].
    pose proof (add_row_run h db ud d v ing (read_row_weaken _ _ _ _ Hsub Hread) Hud) as Hrow.
    destruct (add_to_user_dict d ing) as [d1|]; cbn [mbind option_bind].
    + rewrite (bind_run _ _ _ _ _ Hrow).
      specialize (IH (S i) (<[ud := Store.ODict (Store.VFloat <$> d1)]> h) d1).
      apply lookup_lt_Some in Hing.
      assert (Hsub' : hb ⊆ <[ud := Store.ODict (Store.VFloat <$> d1)]> h)
        by (by apply insert_subseteq_r).
      specialize (IH Hsub' (lookup_insert_eq _ _ _) ltac:(lia) ltac:(lia)).
      destruct (build_user_dict d1 (drop (S i) pantry)) as [d'|].
      * by rewrite insert_insert_eq in IH.
      * destruct IH as [d' IH]. exists d'. by rewrite insert_insert_eq in IH.
    + exists d. rewrite (bind_raise _ _ _ _ _ Hrow). by rewrite insert_id.
  - apply lookup_ge_None in Hv. rewrite (Forall2_length _ _ _ Hrows) in Hv.
    rewrite drop_ge by lia. cbn [build_user_dict]. by rewrite insert_id.
Qed.

Lemma getitem_str_run (h : gmap Store.loc Store.object) (db : Database) (l : Store.loc)
    (fields : gmap string Store.value) (key s : string) :
  h !! l = Some (Store.ODict fields) →
  fields !! key = Some (Store.VStr s) →
  (Store.getitem l key ≫= Store.as_str) (Store.World h db) = (inr s, Store.World h db).
Proof.
  intros Hl Hk.
  unfold Store.getitem, Store.load, mbind, Store.store_mbind, Store.bind.
  cbn [Store.heap]. by rewrite Hl, Hk.
Qed.

Lemma dict_get_float_run (h : gmap Store.loc Store.object) (db : Database) (ud : Store.loc)
    (d : gmap string Q) (key : string) :
  h !! ud = Some (Store.ODict (Store.VFloat <$> d)) →
  (Store.dict_get ud key (Store.VFloat 0) ≫= Store.as_float) (Store.World h db)
  = (inr (default 0%Q (d !! key)), Store.World h db).
Proof.
  intros Hl.
  unfold Store.dict_get, Store.load, mbind, Store.store_mbind, Store.bind.
  cbn [Store.heap]. rewrite Hl, lookup_fmap. by destruct (d !! key).
Qed.

Lemma append_run (h : gmap Store.loc Store.object) (db : Database) (l : Store.loc)
    (m : list (string * Q)) (e : string * Q) :
  h !! l = Some (Store.missing_object m) →
  Store.append l (Store.VPair e.1 e.2) (Store.World h db)
  = (inr (), Store.World (<[l := Store.missing_object (m ++ [e])]> h) db).
Proof.
  intros Hl.
  unfold Store.append, Store.load, Store.store, mbind, Store.store_mbind, Store.bind.
  cbn [Store.heap]. rewrite Hl. unfold Store.missing_object.
  by rewrite fmap_app.
Qed.

(** The loop over the rows of the recipe reads the rows and [user_dict]
    and writes [missing_ings] only, or a new list at the early return; it
    ends as the loop over the values does. *)
Lemma recipe_loop_run (hb : gmap Store.loc Store.object) (db : Database)
    (rl ud ml : Store.loc) (items : list Store.value) (rows : list RecipeIngredient)
    (d : gmap string Q) :
  hb !! rl = Some (Store.OList items) →
  Forall2 (fun v r => Store.read_recipe_row hb v = Some r) items rows →
  hb !! ud = Some (Store.ODict (Store.VFloat <$> d)) →
  hb !! ml = None →
  ∀ fuel i h s m,
    hb ⊆ h →
    h !! ml = Some (Store.missing_object m) →
    i ≤ length rows →
    length rows < fuel + i →
    match score_loop d (drop i rows) s m with
    | Some (Finished s' m') =>
        Store.recipe_loop fuel rl ud ml i s (Store.World h db)
        = (inr (Store.Done s'), Store.World (<[ml := Store.missing_object m']> h) db)
    | Some (Returned sc miss) =>
        ∃ m', let h' := <[ml := Store.missing_object m']> h in
          Store.recipe_loop fuel rl ud ml i s (Store.World h db)
          = (inr (Store.Return sc (fresh (dom h'))),
             Store.World (<[fresh (dom h') := Store.missing_object miss]> h') db)
    | None =>
        ∃ m', Store.recipe_loop fuel rl ud ml i s (Store.World h db)
              = (inl Store.ValueError, Store.World (<[ml := Store.missing_object m']> h) db)
    end.
Proof.
  intros Hrl Hrows Hud Hfresh.
  induction fuel as [|fuel IH]; intros i h s m Hsub Hml Hi Hfuel; [lia|].
  cbn [Store.recipe_loop].
  rewrite (bind_run _ _ _ _ _ (item_at_run h db rl items i (lookup_weaken _ _ _ _ Hrl Hsub))).
  destruct (items !! i) as [v|] eqn:Hv.
  - destruct (Forall2_lookup_l _ _ _ _ _ Hrows Hv) as (r & Hr & Hread).
    rewrite (drop_S _ _ _ Hr). cbn [score_loop].
    apply lookup_lt_Some in Hr.
    unfold Store.read_recipe_row in Hread. destruct v as [| | |l|]; try done.
    destruct (hb !! l) as [[fields|]|] eqn:Hl; try done.
    destruct (fields !! "item") as [[it| | | |]|] eqn:Hit; try done.
    destruct (fields !! "quantity") as [[q| | | |]|] eqn:Hq; try done.
    injection Hread as <-. cbn [item qty].
    pose proof (lookup_weaken _ _ _ _ Hl Hsub) as Hl'.
    assert (Hud' : h !! ud = Some (Store.ODict (Store.VFloat <$> d)))
      by (by apply (lookup_weaken hb)).
    cbn [Store.as_ref].
    rewrite (bind_run (mret l) _ _ _ l (eq_refl _)).
    rewrite (bind_run _ _ _ _ _ (getitem_str_run h db l fields "item" it Hl' Hit)).
    rewrite (bind_run _ _ _ _ _ (getitem_str_run h db l fields "quantity" q Hl' Hq)).
    destruct (parse_quantity_str q) as [g|]; cbn [mbind option_bind Store.lift]; cycle 1.
    { exists m.
      rewrite (bind_raise (Store.raise Store.ValueError) _ _ _ Store.ValueError (eq_refl _)).
      by rewrite insert_id. }
    rewrite (bind_run (mret g) _ _ _ g (eq_refl _)).
    rewrite (bind_run _ _ _ _ _ (dict_get_float_run h db ud d (normalize_name it) Hud')).
    unfold vital_missing.
    destruct (bool_decide _ && Qlt_bool _ _).
    { exists m. cbv zeta. rewrite (insert_id h ml) by done.
      unfold Store.alloc, mbind, Store.store_mbind, Store.bind. cbn [Store.heap Store.database].
      reflexivity. }
    destruct (Qle_bool _ _).
    { apply (IH (S i) h (S s) m); [done|done|lia|lia]. }
    pose proof (append_run h db ml m
                  (normalize_name it, py_max 0 (g - default 0%Q (d !! normalize_name it))) Hml)
      as Happ.
    cbn [fst snd] in Happ. cbv zeta. rewrite (bind_run _ _ _ _ _ Happ). clear Happ.
    set (m1 := m ++ [_]).
    assert (Hsub' : hb ⊆ <[ml := Store.missing_object m1]> h)
      by (by apply insert_subseteq_r).
    specialize (IH (S i) _ s m1 Hsub' (lookup_insert_eq _ _ _) ltac:(lia) ltac:(lia)).
    destruct (score_loop d (drop (S i) rows) s m1) as [[sc miss|s' m']|].
    + destruct IH as [m' IH]. exists m'. cbv zeta in *.
      by rewrite insert_insert_eq in IH.
    + by rewrite insert_insert_eq in IH.
    + destruct IH as [m' IH]. exists m'. by rewrite insert_insert_eq in IH.
  - apply lookup_ge_None in Hv. rewrite (Forall2_length _ _ _ Hrows) in Hv.
    rewrite drop_ge by lia. cbn [score_loop]. by rewrite insert_id.
Qed.

Lemma len_run (h : gmap Store.loc Store.object) (db : Database) (l : Store.loc)
    (items : list Store.value) :
  h !! l = Some (Store.OList items) →
  Store.len l (Store.World h db) = (inr (length items), Store.World h db).
Proof.
  intros Hl. unfold Store.len, Store.load, mbind, Store.store_mbind, Store.bind.
  cbn [Store.heap]. by rewrite Hl.
Qed.

Lemma untouched_weaken (h h' : gmap Store.loc Store.object) (db : Database) :
  h ⊆ h' → Store.untouched (Store.World h db) (Store.World h' db).
Proof.
  intros Hsub. split; [done|]. intros l o Hl. cbn [Store.heap] in *.
  by apply (lookup_weaken h).
Qed.

(** A call over the store returns what the scorer over values returns for
    the rows and the pantry it reads, and leaves every object it was given
    as it was. *)
Lemma get_feasibility_score_refines (fuel : nat) (rid : Z) (ref : Store.loc)
    (w : Store.world) (pantry : list PantryItem) :
  Store.read_pantry (Store.heap w) ref = Some pantry →
  length pantry < fuel →
  length (rows_of (Store.database w) rid) < fuel →
  Store.observe (Store.get_feasibility_score fuel rid ref w)
  = Store.outcome (feasibility (rows_of (Store.database w) rid) pantry)
  ∧ Store.untouched w (Store.get_feasibility_score fuel rid ref w).2.
Proof.
  destruct w as [h0 db]. cbn [Store.heap Store.database].
  intros Hp Hfuel1 Hfuel2.
  unfold Store.read_pantry in Hp.
  destruct (h0 !! ref) as [[|pitems]|] eqn:Href; try done.
  apply mapM_Some_1 in Hp.
  destruct (alloc_rows_run (rows_of db rid) db h0) as (items & h1 & Hrun & Hsub1 & Hrows).
  set (rows := rows_of db rid) in *.
  set (rl := fresh (dom h1)). set (h2 := <[rl := Store.OList items]> h1).
  set (ud := fresh (dom h2)). set (h3 := <[ud := Store.ODict ∅]> h2).
  assert (Hsub12 : h1 ⊆ h2) by apply insert_subseteq, fresh_lookup.
  assert (Hsub02 : h0 ⊆ h2) by (by trans h1).
  assert (Hsub23 : h2 ⊆ h3) by apply insert_subseteq, fresh_lookup.
  assert (Hfetch : Store.fetch_recipe_ingredients rid (Store.World h0 db)
                   = (inr rl, Store.World h2 db)).
  { unfold Store.fetch_recipe_ingredients. cbn [Store.database]. fold rows.
    by rewrite (bind_run _ _ _ _ _ Hrun). }
  unfold Store.get_feasibility_score.
  rewrite (bind_run _ _ _ _ _ Hfetch).
  rewrite (bind_run (Store.alloc (Store.ODict ∅)) _ (Store.World h2 db) (Store.World h3 db)
             ud (eq_refl _)).
  assert (Hud3 : h3 !! ud = Some (Store.ODict (Store.VFloat <$> ∅)))
    by (rewrite fmap_empty; apply lookup_insert_eq).
  pose proof (pantry_loop_run h2 db ref ud pitems pantry
                (lookup_weaken _ _ _ _ Href Hsub02)
                (Forall2_impl _ _ _ _ Hp (fun v ing => read_row_weaken h0 h2 v ing Hsub02))
                (fresh_lookup h2) fuel 0 h3 ∅ Hsub23 Hud3 ltac:(lia) ltac:(lia)) as Hloop.
  change (drop 0 pantry) with pantry in Hloop. unfold feasibility.
  destruct (build_user_dict ∅ pantry) as [d|]; cbn [mbind option_bind]; cycle 1.
  { destruct Hloop as [d Hloop]. rewrite (bind_raise _ _ _ _ _ Hloop).
    split; [done|]. cbn [snd]. apply untouched_weaken.
    trans h2; [done|]. unfold h3. rewrite insert_insert_eq.
    apply insert_subseteq, fresh_lookup. }
  rewrite (bind_run _ _ _ _ _ Hloop). clear Hloop.
  set (h4 := <[ud := Store.ODict (Store.VFloat <$> d)]> h3).
  assert (Hsub24 : h2 ⊆ h4).
  { unfold h4, h3. rewrite insert_insert_eq. apply insert_subseteq, fresh_lookup. }
  assert (Hrl4 : h4 !! rl = Some (Store.OList items))
    by (apply (lookup_weaken h2); [apply lookup_insert_eq|done]).
  rewrite (bind_run _ _ _ _ _ (len_run h4 db rl items Hrl4)).
  set (ml := fresh (dom h4)). set (h5 := <[ml := Store.OList []]> h4).
  rewrite (bind_run (Store.alloc (Store.OList [])) _ (Store.World h4 db) (Store.World h5 db)
             ml (eq_refl _)).
  assert (Hsub45 : h4 ⊆ h5) by apply insert_subseteq, fresh_lookup.
  assert (Hsub04 : h0 ⊆ h4) by (by trans h2).
  assert (Hrows4 : Forall2 (fun v r => Store.read_recipe_row h4 v = Some r) items rows).
  { eapply Forall2_impl; [exact Hrows|]. intros v r.
    apply read_recipe_row_weaken. by trans h2. }
  pose proof (recipe_loop_run h4 db rl ud ml items rows d Hrl4 Hrows4
                (lookup_insert_eq _ _ _) (fresh_lookup h4)
                fuel 0 h5 0 [] Hsub45 (lookup_insert_eq _ _ _) ltac:(lia) ltac:(lia)) as Hloop.
  change (drop 0 rows) with rows in Hloop. rewrite (Forall2_length _ _ _ Hrows).
  destruct (score_loop d rows 0 []) as [[sc miss|s m]|]; cbn [mbind option_bind].
  - destruct Hloop as [m Hloop]. cbv zeta in Hloop.
    unfold h5 in Hloop. rewrite insert_insert_eq in Hloop.
    rewrite (bind_run _ _ _ _ _ Hloop). split.
    + unfold Store.observe. cbn [fst snd Store.heap mret Store.store_mret Store.ret].
      by rewrite (read_missing_object _ _ miss (lookup_insert_eq _ _ _)).
    + cbn [snd mret Store.store_mret Store.ret]. apply untouched_weaken.
      trans h4; [done|].
      trans (<[ml := Store.missing_object m]> h4); apply insert_subseteq, fresh_lookup.
  - unfold h5 in Hloop. rewrite insert_insert_eq in Hloop.
    rewrite (bind_run _ _ _ _ _ Hloop). split.
    + unfold Store.observe.
      destruct (Qlt_bool _ _); cbn [fst snd Store.heap mret Store.store_mret Store.ret];
        by rewrite (read_missing_object _ _ m (lookup_insert_eq _ _ _)).
    + assert (Hfinal : h0 ⊆ <[ml := Store.missing_object m]> h4)
        by (trans h4; [done|]; apply insert_subseteq, fresh_lookup).
      destruct (Qlt_bool _ _); cbn [snd mret Store.store_mret Store.ret];
        by apply untouched_weaken.
  - destruct Hloop as [m Hloop].
    unfold h5 in Hloop. rewrite insert_insert_eq in Hloop.
    rewrite (bind_raise _ _ _ _ _ Hloop). split; [done|].
    cbn [snd]. apply untouched_weaken.
    trans h4; [done|]. apply insert_subseteq, fresh_lookup.
Qed.

End StoreFacts.

(** C9: a call of the scorer writes to no object that existed before it,
    the pantry list and its row dicts included, and leaves the database as
    it found it; what it returns is what the scorer over values returns for
    the rows of the recipe and the pantry.  So two calls that see equal
    rows and equal pantries return equal results, in whatever store and
    database they run, and after the call the pantry reads as before. *)
Theorem C9_scorer_is_pure (fuel : nat) (w1 w2 : Store.world) (rid1 rid2 : Z)
    (ref1 ref2 : Store.loc) (pantry : list PantryItem) :
  Store.read_pantry (Store.heap w1) ref1 = Some pantry →
  Store.read_pantry (Store.heap w2) ref2 = Some pantry →
  rows_of (Store.database w1) rid1 = rows_of (Store.database w2) rid2 →
  length pantry < fuel →
  length (rows_of (Store.database w1) rid1) < fuel →
  let call1 := Store.get_feasibility_score fuel rid1 ref1 w1 in
  let call2 := Store.get_feasibility_score fuel rid2 ref2 w2 in
  Store.observe call1 = Store.observe call2
  ∧ Store.observe call1
    = Store.outcome (get_feasibility_score rid1 pantry (Store.database w1)).1
  ∧ Store.untouched w1 call1.2
  ∧ Store.untouched w2 call2.2
  ∧ Store.read_pantry (Store.heap call1.2) ref1 = Some pantry
  ∧ Store.read_pantry (Store.heap call2.2) ref2 = Some pantry.
Proof.
  intros Hp1 Hp2 Hrows Hfuel1 Hfuel2 call1 call2.
  destruct (get_feasibility_score_refines fuel rid1 ref1 w1 pantry Hp1 Hfuel1 Hfuel2)
    as [Hobs1 Hframe1].
  destruct (get_feasibility_score_refines fuel rid2 ref2 w2 pantry Hp2 Hfuel1
              ltac:(by rewrite <- Hrows)) as [Hobs2 Hframe2].
  fold call1 in Hobs1, Hframe1. fold call2 in Hobs2, Hframe2.
  rewrite get_feasibility_score_run. cbn [fst].
  split; [by rewrite Hobs1, Hobs2, Hrows|]. split; [done|].
  split; [done|]. split; [done|].
  split.
  - apply (read_pantry_weaken (Store.heap w1)); [|done].
    apply map_subseteq_spec. apply Hframe1.
  - apply (read_pantry_weaken (Store.heap w2)); [|done].
    apply map_subseteq_spec. apply Hframe2.
Qed.

Lemma C9_scorer_is_pure_witness :
  let call1 :=
    Store.get_feasibility_score 8 4 1%positive (Store.World Sample.shelf Sample.kitchen) in
  let call2 :=
    Store.get_feasibility_score 8 9 5%positive (Store.World Sample.cupboard Sample.annex) in
  Store.observe call1 = Store.observe call2
  ∧ Store.observe call1
    = Store.outcome (get_feasibility_score 4 (Sample.pantry 2) Sample.kitchen).1
  ∧ Store.untouched (Store.World Sample.shelf Sample.kitchen) call1.2
  ∧ Store.untouched (Store.World Sample.cupboard Sample.annex) call2.2
  ∧ Store.read_pantry (Store.heap call1.2) 1%positive = Some (Sample.pantry 2)
  ∧ Store.read_pantry (Store.heap call2.2) 5%positive = Some (Sample.pantry 2).
Proof.
  apply (C9_scorer_is_pure 8 (Store.World Sample.shelf Sample.kitchen)
           (Store.World Sample.cupboard Sample.annex) 4 9 1%positive 5%positive
           (Sample.pantry 2)).
  - vm_compute. reflexivity.
  - vm_compute. reflexivity.
  - vm_compute. reflexivity.
  - vm_compute. lia.
  - vm_compute. lia.
Defined.

(** ** The ranking *)

Section SortFacts.

Lemma has_score_positive (v : Q) (e : Scored) :
  has_score v e → (positive_score e ↔ (0 < v)%Q).
Proof.
  unfold has_score, positive_score. intros H%Is_true_true%Qeq_bool_iff.
  rewrite Is_true_true, Qlt_bool_iff. by rewrite H.
Qed.

Lemma insert_desc_perm (x : Scored) (l : list Scored) : insert_desc x l ≡ₚ x :: l.
Proof.
  induction l as [|y ys IH]; [done|]. cbn [insert_desc].
  destruct (Qlt_bool _ _); [|done]. rewrite IH. apply Permutation_swap.
Qed.

Lemma insert_desc_sorted (x : Scored) (l : list Scored) :
  StronglySorted by_score_desc l → StronglySorted by_score_desc (insert_desc x l).
Proof.
  induction 1 as [|y ys Hs IH Hy]; cbn [insert_desc].
  - repeat constructor.
  - destruct (Qlt_bool (score_of x) (score_of y)) eqn:E.
    + apply Qlt_bool_iff in E. constructor; [exact IH|].
      rewrite insert_desc_perm. constructor; [|exact Hy].
      by apply Qlt_le_weak.
    + apply Qlt_bool_false_iff in E. constructor; [by constructor|].
      constructor; [exact E|].
      eapply Forall_impl; [exact Hy|]. intros z Hz. unfold by_score_desc in *.
      by eapply Qle_trans.
Qed.

(** Insertion does not reorder entries of equal score. *)
Lemma insert_desc_stable (v : Q) (x : Scored) (l : list Scored) :
  filter (has_score v) (insert_desc x l) = filter (has_score v) (x :: l).
Proof.
  induction l as [|y ys IH]; [done|]. cbn [insert_desc].
  destruct (Qlt_bool (score_of x) (score_of y)) eqn:E; [|done].
  apply Qlt_bool_iff in E.
  rewrite (filter_cons _ y), IH, !(filter_cons _ x), (filter_cons _ y).
  destruct (decide (has_score v y)) as [Hy|]; [|done].
  destruct (decide (has_score v x)) as [Hx|]; [|done].
  unfold has_score in Hx, Hy.
  apply Is_true_true, Qeq_bool_iff in Hx. apply Is_true_true, Qeq_bool_iff in Hy.
  rewrite Hx, Hy in E. by apply Qlt_irrefl in E.
Qed.

Lemma sort_desc_perm (l : list Scored) : sort_desc l ≡ₚ l.
Proof.
  induction l as [|x xs IH]; [done|]. cbn. by rewrite insert_desc_perm, IH.
Qed.

Lemma sort_desc_sorted (l : list Scored) : StronglySorted by_score_desc (sort_desc l).
Proof.
  induction l as [|x xs IH]; [constructor|]. by apply insert_desc_sorted.
Qed.

Lemma sort_desc_stable (v : Q) (l : list Scored) :
  filter (has_score v) (sort_desc l) = filter (has_score v) l.
Proof.
  induction l as [|x xs IH]; [done|]. cbn [sort_desc foldr].
  rewrite insert_desc_stable, !filter_cons. fold (sort_desc xs). by rewrite IH.
Qed.

Lemma take_sorted (n : nat) (l : list Scored) :
  StronglySorted by_score_desc l → StronglySorted by_score_desc (take n l).
Proof.
  intros H. rewrite <- (take_drop n l) in H. by apply StronglySorted_app_1_l in H.
Qed.

Lemma filter_take_prefix (v : Q) (n : nat) (l : list Scored) :
  filter (has_score v) (take n l) `prefix_of` filter (has_score v) l.
Proof.
  exists (filter (has_score v) (drop n l)). by rewrite <- filter_app, take_drop.
Qed.

(** Among the entries of a given score the zero filter drops all or none. *)
Lemma filter_has_score_positive (v : Q) (l : list Scored) :
  filter (has_score v) (filter positive_score l)
  = if Qlt_bool 0 v then filter (has_score v) l else [].
Proof.
  induction l as [|x xs IH]; [by destruct (Qlt_bool 0 v)|].
  rewrite (filter_cons positive_score), (filter_cons (has_score v) x xs).
  destruct (decide (has_score v x)) as [Hx|Hx].
  - pose proof (has_score_positive v x Hx) as Hpos.
    destruct (Qlt_bool 0 v) eqn:E.
    + rewrite decide_True by (apply Hpos; by apply Qlt_bool_iff).
      by rewrite filter_cons_True, IH.
    + rewrite decide_False; [exact IH|].
      intros Hp%Hpos%Qlt_bool_iff. congruence.
  - destruct (decide (positive_score x)); [|exact IH].
    rewrite filter_cons_False by done. exact IH.
Qed.

End SortFacts.

(** The scoring loop of [chat] reads the database without changing it; it
    keeps, in catalog order, the entries of positive score of the scored
    catalog. *)
Lemma score_candidates_run (d : Database) (user_ingredients : list PantryItem)
    (candidate_recipes : list Recipe) :
  ∀ acc res d',
    score_candidates candidate_recipes user_ingredients acc d = (Some res, d') →
    d' = d
    ∧ ∃ all : list Scored,
        map recipe_of all = candidate_recipes
        ∧ Forall (scored_by d user_ingredients) all
        ∧ res = acc ++ filter positive_score all.
Proof.
  induction candidate_recipes as [|r rest IH]; intros acc res d' H.
  - injection H as <- <-. split; [done|]. exists []. by rewrite app_nil_r.
  - cbn [score_candidates] in H. unfold mbind, db_mbind, db_bind in H.
    rewrite get_feasibility_score_run in H.
    destruct (feasibility (rows_of d (recipe_id r)) user_ingredients)
      as [[score missing]|] eqn:Hf; [|discriminate H].
    assert (Hsc : scored_by d user_ingredients (r, score, missing)).
    { unfold scored_by. by rewrite get_feasibility_score_run. }
    destruct (Qlt_bool 0 score) eqn:Hpos; apply IH in H as (-> & all & Hc & Hall & ->);
      (split; [done|]); exists ((r, score, missing) :: all);
      (split; [by rewrite <- Hc|]); (split; [by constructor|]).
    + rewrite filter_cons_True by (unfold positive_score; cbn; by rewrite Hpos).
      by rewrite <- app_assoc.
    + rewrite filter_cons_False; [done|].
      unfold positive_score; cbn. rewrite Hpos. intros Hfalse. exact Hfalse.
Qed.

(** C4: the ranked shortlist has at most 3 entries, none of score 0.0, and
    is sorted by non-increasing score; the entries of any one score are, in
    the same order, the first of that score in the scored catalog (the sort
    is stable and has no second key).  An empty shortlist is an outcome, not
    an error: [chat] then answers, with status 200, that no suitable recipe
    was found. *)
Theorem C4_rank_top_three (d d' : Database) (candidate_recipes : list Recipe)
    (user_ingredients : list PantryItem) (top_recipes : list Scored) :
  rank candidate_recipes user_ingredients d = (Some top_recipes, d') →
  length top_recipes ≤ 3
  ∧ Forall (fun e => ¬ (score_of e == 0)%Q) top_recipes
  ∧ StronglySorted by_score_desc top_recipes
  ∧ (∃ all : list Scored,
       map recipe_of all = candidate_recipes
       ∧ Forall (scored_by d user_ingredients) all
       ∧ ∀ v, filter (has_score v) top_recipes `prefix_of` filter (has_score v) all)
  ∧ (top_recipes = [] →
     ∀ (generate_content : string → string) (user_input : string),
       String.eqb (PyStr.strip user_input) "" = false →
       user_ingredients = ingredients d →
       candidate_recipes = select_recipes d (taste_of_request (PyStr.strip user_input)) →
       chat generate_content user_input d = (Some no_suitable, d)).
Proof.
  intros H. unfold rank, sorted_candidates, mbind, db_mbind, db_bind in H.
  destruct (score_candidates candidate_recipes user_ingredients [] d)
    as [[res|] d''] eqn:Hsc; [|discriminate H].
  cbn in H. injection H as <- <-.
  destruct (score_candidates_run _ _ _ _ _ _ Hsc) as (-> & all & Hc & Hall & ->).
  cbn [app] in *. repeat split.
  - rewrite length_take. lia.
  - apply Forall_take. rewrite sort_desc_perm. apply Forall_forall.
    intros e [He _]%list_elem_of_filter.
    unfold positive_score in He. apply Is_true_true, Qlt_bool_iff in He.
    intros E. rewrite E in He. by apply Qlt_irrefl in He.
  - apply take_sorted, sort_desc_sorted.
  - exists all. repeat split; [done..|]. intros v.
    pose proof (filter_take_prefix v 3 (sort_desc (filter positive_score all))) as Hp.
    rewrite sort_desc_stable, filter_has_score_positive in Hp.
    destruct (Qlt_bool 0 v); [exact Hp|].
    apply prefix_nil_inv in Hp. rewrite Hp. apply prefix_nil.
  - intros Hnil generate_content user_input Hne -> ->.
    unfold chat. rewrite Hne.
    unfold sorted_candidates, mbind, db_mbind, db_bind.
    cbn [fetch_current_ingredients fetch_recipes].
    rewrite Hsc. cbn.
    destruct (sort_desc (filter positive_score all)); [done|discriminate Hnil].
Qed.

Lemma C4_rank_top_three_witness :
  let d := Sample.kitchen in
  let top_recipes :=
    [ (Sample.recipe 2 "Omelette", 2 # 2, []);
      (Sample.recipe 6 "Boiled eggs", 1 # 1, []);
      (Sample.recipe 3 "Salted eggs", 1 # 2, [("salt", 10%Q)]) ] in
  length top_recipes ≤ 3
  ∧ Forall (fun e => ¬ (score_of e == 0)%Q) top_recipes
  ∧ StronglySorted by_score_desc top_recipes
  ∧ (∃ all : list Scored,
       map recipe_of all = recipes d
       ∧ Forall (scored_by d (ingredients d)) all
       ∧ ∀ v, filter (has_score v) top_recipes `prefix_of` filter (has_score v) all)
  ∧ (top_recipes = [] →
     ∀ (generate_content : string → string) (user_input : string),
       String.eqb (PyStr.strip user_input) "" = false →
       ingredients d = ingredients d →
       recipes d = select_recipes d (taste_of_request (PyStr.strip user_input)) →
       chat generate_content user_input d = (Some no_suitable, d)).
Proof.
  apply (C4_rank_top_three Sample.kitchen Sample.kitchen).
  vm_compute. reflexivity.
Defined.

(** ** The prompt *)

Section PromptFacts.

Lemma append_cons (x : ascii) (a b : string) : String x a +:+ b = String x (a +:+ b).
Proof. reflexivity. Qed.

Lemma append_assoc (a b c : string) : (a +:+ b) +:+ c = a +:+ b +:+ c.
Proof. induction a as [|x a IH]; [done|]. rewrite !append_cons. by f_equal. Qed.

Lemma append_nil_inv (a b : string) : a +:+ b = "" → a = "" ∧ b = "".
Proof. destruct a; [done|discriminate]. Qed.


(** [rstrip] only looks at the text after the last character it keeps. *)
Lemma rstrip_append (a b : string) :
  PyStr.rstrip b ≠ "" → PyStr.rstrip (a +:+ b) = a +:+ PyStr.rstrip b.
Proof.
  intros Hb. induction a as [|x a IH]; [done|].
  rewrite !append_cons. cbn [PyStr.rstrip]. rewrite IH.
  destruct (a +:+ PyStr.rstrip b) eqn:E; [|done].
  by apply append_nil_inv in E as [_ E].
Qed.




(** The loop of the prompt builder renders the entries one by one, in
    order, and leaves the database as it was. *)
Lemma text_blocks_run (d : Database) (top_recipes : list Scored) :
  ∀ acc, text_blocks top_recipes acc d = (Some (acc ++ map (block_of d) top_recipes), d).
Proof.
  induction top_recipes as [|e rest IH]; intros acc.
  - cbn. by rewrite app_nil_r.
  - cbn [text_blocks]. unfold mbind, db_mbind, db_bind. cbn [fetch_recipe_ingredients].
    rewrite IH. cbn [map]. by rewrite <- app_assoc.
Qed.

End PromptFacts.


(** * Further properties of the normaliser *)

Section CaseAndSpace.

Lemma lower_ascii_idem (c : ascii) :
  PyStr.lower_ascii (PyStr.lower_ascii c) = PyStr.lower_ascii c.
Proof. destruct c as [[] [] [] [] [] [] [] []]; vm_compute; reflexivity. Qed.

Lemma is_space_lower_ascii (c : ascii) :
  PyStr.is_space (PyStr.lower_ascii c) = PyStr.is_space c.
Proof. destruct c as [[] [] [] [] [] [] [] []]; vm_compute; reflexivity. Qed.

Lemma lower_idem (s : string) : PyStr.lower (PyStr.lower s) = PyStr.lower s.
Proof.
  induction s as [|c r IH]; [done|]. cbn [PyStr.lower].
  by rewrite lower_ascii_idem, IH.
Qed.

Lemma lstrip_lower (s : string) : PyStr.lstrip (PyStr.lower s) = PyStr.lower (PyStr.lstrip s).
Proof.
  induction s as [|c r IH]; [done|]. cbn [PyStr.lower PyStr.lstrip].
  rewrite is_space_lower_ascii. by destruct (PyStr.is_space c).
Qed.

Lemma rstrip_lower (s : string) : PyStr.rstrip (PyStr.lower s) = PyStr.lower (PyStr.rstrip s).
Proof.
  induction s as [|c r IH]; [done|]. cbn [PyStr.lower PyStr.rstrip].
  rewrite IH, is_space_lower_ascii.
  destruct (PyStr.rstrip r); cbn [PyStr.lower]; [|done].
  by destruct (PyStr.is_space c).
Qed.

Lemma strip_lower (s : string) : PyStr.strip (PyStr.lower s) = PyStr.lower (PyStr.strip s).
Proof. unfold PyStr.strip. by rewrite lstrip_lower, rstrip_lower. Qed.

(** What [lstrip] returns does not start with whitespace. *)
Lemma lstrip_head (s : string) :
  match PyStr.lstrip s with
  | EmptyString => True
  | String c _ => PyStr.is_space c = false
  end.
Proof.
  induction s as [|c r IH]; [done|]. cbn [PyStr.lstrip].
  by destruct (PyStr.is_space c) eqn:E.
Qed.

Lemma lstrip_fixed (c : ascii) (r : string) :
  PyStr.is_space c = false → PyStr.lstrip (String c r) = String c r.
Proof. intros H. cbn [PyStr.lstrip]. by rewrite H. Qed.

Lemma rstrip_head (c : ascii) (r : string) :
  PyStr.is_space c = false → ∃ r', PyStr.rstrip (String c r) = String c r'.
Proof.
  intros H. cbn [PyStr.rstrip]. destruct (PyStr.rstrip r); rewrite ?H; eauto.
Qed.

Lemma rstrip_idem (s : string) : PyStr.rstrip (PyStr.rstrip s) = PyStr.rstrip s.
Proof.
  induction s as [|c r IH]; [done|]. cbn [PyStr.rstrip].
  destruct (PyStr.rstrip r) as [|b t] eqn:E.
  - destruct (PyStr.is_space c) eqn:Hc; [done|]. cbn [PyStr.rstrip]. by rewrite Hc.
  - cbn [PyStr.rstrip]. cbn [PyStr.rstrip] in IH. by rewrite IH.
Qed.

Lemma strip_idem (s : string) : PyStr.strip (PyStr.strip s) = PyStr.strip s.
Proof.
  unfold PyStr.strip. pose proof (lstrip_head s) as H.
  destruct (PyStr.lstrip s) as [|c r]; [done|].
  destruct (rstrip_head c r H) as [r' Hr]. rewrite Hr, lstrip_fixed by done.
  by rewrite <- Hr, rstrip_idem.
Qed.

(** A lowercase text stays lowercase when parts of it are deleted. *)
Lemma lower_remove_go (old : string) (s : string) :
  PyStr.lower s = s → ∀ skip, PyStr.lower (PyStr.remove_go old skip s) = PyStr.remove_go old skip s.
Proof.
  induction s as [|c r IH]; [done|]. cbn [PyStr.lower]. intros [= Hc Hr] skip.
  cbn [PyStr.remove_go]. destruct skip; [|by apply IH].
  destruct (PyStr.startswith old (String c r)); [by apply IH|].
  cbn [PyStr.lower]. by rewrite Hc, IH.
Qed.

Lemma lower_drop_last (s : string) :
  PyStr.lower s = s → PyStr.lower (PyStr.drop_last s) = PyStr.drop_last s.
Proof.
  induction s as [|c r IH]; [done|]. cbn [PyStr.lower]. intros [= Hc Hr].
  cbn [PyStr.drop_last]. destruct r; [done|].
  cbn [PyStr.lower]. rewrite Hc. f_equal. by apply IH.
Qed.

Lemma lower_remove_descriptors (ds : list string) :
  ∀ s, PyStr.lower s = s →
       PyStr.lower (foldl (fun acc desc => PyStr.remove_all desc acc) s ds)
       = foldl (fun acc desc => PyStr.remove_all desc acc) s ds.
Proof.
  induction ds as [|d ds IH]; intros s Hs; [done|].
  cbn [foldl]. apply IH. by apply lower_remove_go.
Qed.

End CaseAndSpace.

(** X1: [normalize_name] ignores the case of the letters and the whitespace
    around the name. *)
Theorem X1_normalize_name_ignores_case_and_margin (name : string) :
  normalize_name (PyStr.lower name) = normalize_name name
  ∧ normalize_name (PyStr.strip name) = normalize_name name.
Proof.
  unfold normalize_name. split.
  - by rewrite lower_idem.
  - by rewrite <- strip_lower, strip_idem.
Qed.

(** X2: a canonical name is lowercase and has no whitespace around it. *)
Theorem X2_normalize_name_is_lowercase_and_trimmed (name : string) :
  PyStr.lower (normalize_name name) = normalize_name name
  ∧ PyStr.strip (normalize_name name) = normalize_name name.
Proof.
  unfold normalize_name. split; [|apply strip_idem].
  rewrite <- strip_lower. f_equal.
  set (cut := foldl (fun acc desc => PyStr.remove_all desc acc)
                (PyStr.strip (PyStr.lower name)) descriptors).
  assert (Hcut : PyStr.lower cut = cut).
  { apply lower_remove_descriptors. by rewrite <- strip_lower, lower_idem. }
  destruct (PyStr.endswith_char "s" cut); [by apply lower_drop_last|done].
Qed.

(** * Further properties of the quantity parser *)

Section ParseMore.

Lemma eqb_dot_lower_ascii (c : ascii) :
  Ascii.eqb "." (PyStr.lower_ascii c) = Ascii.eqb "." c.
Proof. destruct c as [[] [] [] [] [] [] [] []]; vm_compute; reflexivity. Qed.

Lemma contains_dot_lower (s : string) :
  PyStr.contains "." (PyStr.lower s) = PyStr.contains "." s.
Proof.
  induction s as [|c r IH]; [done|]. cbn [PyStr.lower PyStr.contains].
  by rewrite !startswith_char, eqb_dot_lower_ascii, IH.
Qed.

(** Stripping adds no character. *)
Lemma contains_char_lstrip_inv (c : ascii) (s : string) :
  PyStr.contains (String c "") (PyStr.lstrip s) = true →
  PyStr.contains (String c "") s = true.
Proof.
  induction s as [|a r IH]; [done|]. cbn [PyStr.lstrip].
  destruct (PyStr.is_space a); [|done].
  intros H. cbn [PyStr.contains]. rewrite (IH H). apply orb_true_r.
Qed.

Lemma contains_char_rstrip_inv (c : ascii) (s : string) :
  PyStr.contains (String c "") (PyStr.rstrip s) = true →
  PyStr.contains (String c "") s = true.
Proof.
  induction s as [|a r IH]; [done|]. cbn [PyStr.rstrip].
  destruct (PyStr.rstrip r) as [|b t] eqn:E.
  - destruct (PyStr.is_space a); [discriminate|].
    cbn [PyStr.contains]. rewrite !startswith_char.
    destruct (Ascii.eqb c a); [done|discriminate].
  - cbn [PyStr.contains]. rewrite !startswith_char.
    destruct (Ascii.eqb c a); [done|]. cbn [orb]. intros H.
    apply IH. cbn [PyStr.contains]. by rewrite startswith_char.
Qed.

Lemma contains_char_strip_inv (c : ascii) (s : string) :
  PyStr.contains (String c "") (PyStr.strip s) = true →
  PyStr.contains (String c "") s = true.
Proof.
  unfold PyStr.strip. intros H.
  by apply contains_char_lstrip_inv, contains_char_rstrip_inv.
Qed.

Lemma scan_char_digit (st : PyFloat.scan) (c : ascii) :
  Regex.is_digit c = true →
  PyFloat.dots (PyFloat.scan_char st c) = PyFloat.dots st
  ∧ PyFloat.digits (PyFloat.scan_char st c) = S (PyFloat.digits st).
Proof. intros H. unfold PyFloat.scan_char. by rewrite H. Qed.

(** Scanning a run without a point counts digits only. *)
Lemma scan_take_class_no_dot (x : string) :
  PyStr.contains "." x = false →
  ∀ st, PyFloat.dots (PyFloat.scan_string st (Regex.take_class x)) = PyFloat.dots st
        ∧ PyFloat.digits st ≤ PyFloat.digits (PyFloat.scan_string st (Regex.take_class x)).
Proof.
  induction x as [|c r IH]; [done|].
  cbn [PyStr.contains]. rewrite startswith_char. intros [Hc Hr]%orb_false_iff st.
  cbn [Regex.take_class]. unfold Regex.in_class, Regex.is_dot.
  rewrite (Ascii.eqb_sym c "."), Hc, orb_false_r.
  destruct (Regex.is_digit c) eqn:Hd; [|done].
  cbn [PyFloat.scan_string]. destruct (IH Hr (PyFloat.scan_char st c)) as [H1 H2].
  destruct (scan_char_digit st c Hd) as [H3 H4].
  rewrite H1, H3. split; [done|lia].
Qed.

Lemma search_no_dot (s text : string) :
  PyStr.contains "." s = false →
  Regex.search s = Some text → is_Some (PyFloat.of_string text).
Proof.
  induction s as [|c r IH]; [done|].
  cbn [PyStr.contains Regex.search]. rewrite startswith_char.
  intros [Hc Hr]%orb_false_iff.
  destruct (Regex.in_class c) eqn:Hin; [|by apply IH].
  intros [= <-]. cbn [Regex.take_class]. rewrite Hin.
  unfold Regex.in_class, Regex.is_dot in Hin.
  rewrite (Ascii.eqb_sym c "."), Hc, orb_false_r in Hin.
  unfold PyFloat.of_string. cbn [PyFloat.scan_string].
  set (st1 := PyFloat.scan_char (PyFloat.Scan 0 0 0 0) c).
  destruct (scan_take_class_no_dot r Hr st1) as [H1 H2].
  destruct (scan_char_digit (PyFloat.Scan 0 0 0 0) c Hin) as [H3 H4].
  fold st1 in H3, H4. cbn [PyFloat.dots PyFloat.digits] in H3, H4.
  rewrite H1, H3. cbn [Nat.leb andb].
  destruct (0 <? _)%nat eqn:E; [rewrite andb_true_r; eauto|].
  apply Nat.ltb_ge in E. lia.
Qed.

Lemma startswith_app_l (p q : string) :
  ∀ s, PyStr.startswith (p +:+ q) s = true → PyStr.startswith p s = true.
Proof.
  induction p as [|a p IH]; [done|]. intros [|b s]; [done|].
  rewrite append_cons. cbn [PyStr.startswith].
  destruct (Ascii.eqb a b); [apply IH|done].
Qed.

(** A string that contains a key contains every prefix of the key. *)
Lemma contains_app_l (p q s : string) :
  PyStr.contains (p +:+ q) s = true → PyStr.contains p s = true.
Proof.
  induction s as [|b s IH]; cbn [PyStr.contains].
  - rewrite !orb_false_r. apply startswith_app_l.
  - intros [H|H]%orb_true_iff.
    + by rewrite (startswith_app_l _ _ _ H).
    + rewrite (IH H). apply orb_true_r.
Qed.

Lemma contains_app_l_false (p q s : string) :
  PyStr.contains p s = false → PyStr.contains (p +:+ q) s = false.
Proof.
  intros H. destruct (PyStr.contains (p +:+ q) s) eqn:E; [|done].
  apply contains_app_l in E. congruence.
Qed.

End ParseMore.

(** X3: whenever [parse_quantity_str] returns, the grams are not
    negative (a sign in front of the number is not read). *)
Theorem X3_parse_quantity_not_negative (qty_str : string) (grams : Q) :
  parse_quantity_str qty_str = Some grams → (0 <= grams)%Q.
Proof. apply parse_quantity_str_nonneg. Qed.

Lemma X3_parse_quantity_not_negative_witness : (0 <= 25 * 240 # 10)%Q.
Proof.
  apply (X3_parse_quantity_not_negative "-2.5 Cups"). vm_compute. reflexivity.
Defined.

Lemma parse_quantity_str_total_without_point (qty_str : string) :
  PyStr.contains "." qty_str = false → is_Some (parse_quantity_str qty_str).
Proof.
  intros Hdot. unfold parse_quantity_str.
  set (q := PyStr.strip (PyStr.lower qty_str)).
  assert (Hq : PyStr.contains "." q = false).
  { destruct (PyStr.contains "." q) eqn:E; [|done].
    apply contains_char_strip_inv in E. rewrite contains_dot_lower in E. congruence. }
  unfold amount_of. destruct (Regex.search q) as [text|] eqn:Hs.
  - destruct (search_no_dot q text Hq Hs) as [amount ->]. cbn. eauto.
  - cbn. eauto.
Qed.

(** X4: a quantity string without a point never makes
    [parse_quantity_str] raise. *)
Theorem X4_parse_quantity_total_without_point (qty_str : string) :
  PyStr.contains "." qty_str = false → is_Some (parse_quantity_str qty_str).
Proof. apply parse_quantity_str_total_without_point. Qed.

Lemma X4_parse_quantity_total_without_point_witness :
  is_Some (parse_quantity_str "a pinch").
Proof.
  apply (X4_parse_quantity_total_without_point "a pinch"). vm_compute. reflexivity.
Defined.

(** X5: the entries "gram", "gram.", "grams" and "cups" of [UNIT_MAP]
    never decide a conversion: "g" and "cup" come earlier in the table and
    match every string those keys match. *)
Theorem X5_shadowed_unit_entries (qty_str : string) (amount : Q) :
  convert UNIT_MAP qty_str amount = convert LIVE_UNITS qty_str amount.
Proof.
  unfold UNIT_MAP, LIVE_UNITS. cbn [convert].
  destruct (PyStr.contains "g" qty_str) eqn:Hg; [done|].
  assert (H1 : PyStr.contains "gram" qty_str = false)
    by exact (contains_app_l_false "g" "ram" _ Hg).
  assert (H2 : PyStr.contains "gram." qty_str = false)
    by exact (contains_app_l_false "g" "ram." _ Hg).
  assert (H3 : PyStr.contains "grams" qty_str = false)
    by exact (contains_app_l_false "g" "rams" _ Hg).
  rewrite H1, H2, H3.
  destruct (PyStr.contains "cup" qty_str) eqn:Hc.
  - by repeat (destruct (PyStr.contains _ qty_str); [done|]).
  - assert (H4 : PyStr.contains "cups" qty_str = false)
      by exact (contains_app_l_false "cup" "s" _ Hc).
    by rewrite H4.
Qed.

(** * Further properties of the scorer *)

Section PantryMap.

Lemma build_user_dict_app (p e : list PantryItem) :
  ∀ user_dict,
    build_user_dict user_dict (p ++ e)
    = build_user_dict user_dict p ≫= fun d => build_user_dict d e.
Proof.
  induction p as [|ing p IH]; intros user_dict; [done|].
  cbn [app build_user_dict].
  destruct (add_to_user_dict user_dict ing) as [d1|]; [|done].
  cbn [mbind option_bind]. apply IH.
Qed.

(** Adding a pantry row never lowers what the map holds under any name. *)
Lemma add_to_user_dict_grows (user_dict d' : gmap string Q) (ing : PantryItem) :
  add_to_user_dict user_dict ing = Some d' →
  ∀ k, (default 0 (user_dict !! k) <= default 0 (d' !! k))%Q.
Proof.
  unfold add_to_user_dict.
  destruct (parse_quantity_str _) as [g|] eqn:Hg; [|discriminate].
  cbn [mbind option_bind]. intros [= <-] k.
  apply parse_quantity_str_nonneg in Hg.
  rewrite lookup_insert. destruct (decide (normalize_name (name ing) = k)) as [->|].
  - simpl. generalize (default 0%Q (user_dict !! k)). intros x. lra.
  - apply Qle_refl.
Qed.

Lemma build_user_dict_grows (user_ingredients : list PantryItem) :
  ∀ user_dict d',
    build_user_dict user_dict user_ingredients = Some d' →
    ∀ k, (default 0 (user_dict !! k) <= default 0 (d' !! k))%Q.
Proof.
  induction user_ingredients as [|ing rest IH]; intros user_dict d' H k.
  - injection H as <-. apply Qle_refl.
  - cbn [build_user_dict] in H.
    destruct (add_to_user_dict user_dict ing) as [d1|] eqn:Hadd; [|discriminate H].
    cbn [mbind option_bind] in H.
    eapply Qle_trans; [by eapply add_to_user_dict_grows|by eapply IH].
Qed.

(** The pantry map holds no negative amount. *)
Lemma build_user_dict_nonneg (user_ingredients : list PantryItem) (user_dict : gmap string Q) :
  build_user_dict ∅ user_ingredients = Some user_dict →
  ∀ k, (0 <= default 0 (user_dict !! k))%Q.
Proof.
  intros H k. pose proof (build_user_dict_grows _ _ _ H k) as Hk.
  by rewrite lookup_empty in Hk.
Qed.

End PantryMap.

Section LoopInvariants.

Variable user_dict : gmap string Q.

(** Every ingredient ends up counted or listed. *)
Lemma score_loop_balance (recipe_ings : list RecipeIngredient) :
  ∀ s m s' m',
    score_loop user_dict recipe_ings s m = Some (Finished s' m') →
    s' + length m' = s + length m + length recipe_ings.
Proof.
  induction recipe_ings as [|r rest IH]; intros s m s' m' H.
  - injection H as <- <-. cbn. lia.
  - cbn [score_loop] in H.
    destruct (parse_quantity_str (qty r)) as [g|]; [|discriminate H].
    cbn [mbind option_bind] in H.
    destruct (vital_missing _ _); [discriminate H|].
    destruct (Qle_bool _ _); apply IH in H; rewrite H, ?length_app; cbn [length]; lia.
Qed.

(** The early return carries one entry. *)
Lemma score_loop_returned_entry (recipe_ings : list RecipeIngredient) :
  ∀ s m score missing,
    score_loop user_dict recipe_ings s m = Some (Returned score missing) →
    ∃ r g, r ∈ recipe_ings ∧ parse_quantity_str (qty r) = Some g
           ∧ missing = [(normalize_name (item r), g)].
Proof.
  induction recipe_ings as [|r rest IH]; intros s m score missing H; [discriminate H|].
  cbn [score_loop] in H.
  destruct (parse_quantity_str (qty r)) as [g|] eqn:Hg; [|discriminate H].
  cbn [mbind option_bind] in H.
  destruct (vital_missing _ _).
  - injection H as _ <-. exists r, g. split; [left|done].
  - destruct (Qle_bool _ _); apply IH in H as (r' & g' & Hin & Hp & ->);
      exists r', g'; (split; [by right|done]).
Qed.

Hypothesis user_dict_nonneg : ∀ k, (0 <= default 0 (user_dict !! k))%Q.

Lemma score_loop_entries (all recipe_ings : list RecipeIngredient) :
  recipe_ings ⊆ all →
  ∀ s m s' m',
    Forall (entry_of all) m →
    score_loop user_dict recipe_ings s m = Some (Finished s' m') →
    Forall (entry_of all) m'.
Proof.
  induction recipe_ings as [|r rest IH]; intros Hsub s m s' m' Hm H.
  - by injection H as _ <-.
  - cbn [score_loop] in H.
    destruct (parse_quantity_str (qty r)) as [g|] eqn:Hg; [|discriminate H].
    cbn [mbind option_bind] in H.
    destruct (vital_missing _ _); [discriminate H|].
    assert (Hrest : rest ⊆ all) by set_solver.
    destruct (Qle_bool _ _) eqn:E; [by eapply IH|].
    eapply IH in H; [done|done|]. apply Forall_app. split; [done|].
    constructor; [|done]. exists r, g. split; [set_solver|]. split; [done|].
    cbn [fst snd]. split; [done|].
    pose proof (user_dict_nonneg (normalize_name (item r))) as H0.
    assert (Hlt : (default 0 (user_dict !! normalize_name (item r)) < g * 0.8)%Q).
    { apply Qnot_le_lt. intros Hle%Qle_bool_iff. congruence. }
    unfold py_max. revert H0 Hlt.
    generalize (default 0%Q (user_dict !! normalize_name (item r))). intros x H0 Hlt.
    destruct (Qlt_bool 0 _) eqn:Hpos.
    + lra.
    + apply Qlt_bool_false_iff in Hpos. lra.
Qed.

End LoopInvariants.

(** The two ways in which the scorer returns. *)
Lemma feasibility_inv (recipe_ings : list RecipeIngredient)
    (user_ingredients : list PantryItem) (score : Q) (missing : list (string * Q)) :
  feasibility recipe_ings user_ingredients = Some (score, missing) →
  ∃ user_dict,
    build_user_dict ∅ user_ingredients = Some user_dict
    ∧ ((score = 0%Q ∧ ∃ sc, score_loop user_dict recipe_ings 0 [] = Some (Returned sc missing))
       ∨ (∃ s, score_loop user_dict recipe_ings 0 [] = Some (Finished s missing)
               ∧ score = if Qlt_bool (coverage s (length recipe_ings)) 0.5
                         then 0%Q else coverage s (length recipe_ings))).
Proof.
  unfold feasibility.
  destruct (build_user_dict ∅ user_ingredients) as [user_dict|]; [|discriminate].
  cbn [mbind option_bind]. intros H. exists user_dict. split; [done|].
  destruct (score_loop user_dict recipe_ings 0 []) as [[sc ms|s ms]|] eqn:Hloop;
    [| |discriminate H]; cbn [mbind option_bind] in H.
  - injection H as <- <-. left. split; [by eapply score_loop_returned|eauto].
  - right. exists s.
    destruct (Qlt_bool _ _); injection H as <- <-; done.
Qed.

Lemma coverage_mono (s s' n : nat) : s ≤ s' → (coverage s n <= coverage s' n)%Q.
Proof.
  intros Hs. unfold coverage. destruct (0 <? n)%nat eqn:Hn; [|apply Qle_refl].
  apply Nat.ltb_lt in Hn. unfold Qdiv. apply Qmult_le_compat_r.
  - rewrite <- Zle_Qle. lia.
  - apply Qinv_le_0_compat. change 0%Q with (inject_Z 0). rewrite <- Zle_Qle. lia.
Qed.

Lemma coverage_full (n : nat) : (coverage n n == 1)%Q.
Proof.
  unfold coverage. destruct (0 <? n)%nat eqn:Hn; [|reflexivity].
  apply Nat.ltb_lt in Hn. apply Qmult_inv_r.
  change 0%Q with (inject_Z 0). rewrite inject_Z_injective. lia.
Qed.

Lemma coverage_one_inv (s n : nat) : s ≤ n → (coverage s n == 1)%Q → s = n ∨ n = 0.
Proof.
  intros Hsn. unfold coverage. destruct (0 <? n)%nat eqn:Hn.
  - apply Nat.ltb_lt in Hn. intros H. left.
    assert (Hn0 : ¬ (inject_Z (Z.of_nat n) == 0)%Q).
    { change 0%Q with (inject_Z 0). rewrite inject_Z_injective. lia. }
    apply (Qmult_inj_r _ _ (inject_Z (Z.of_nat n))) in H; [|done].
    unfold Qdiv in H. rewrite <- Qmult_assoc, (Qmult_comm (/ _)), Qmult_inv_r in H by done.
    rewrite Qmult_1_r, Qmult_1_l, inject_Z_injective in H. lia.
  - apply Nat.ltb_ge in Hn. right. lia.
Qed.

Lemma feasibility_score_nonneg (recipe_ings : list RecipeIngredient)
    (user_ingredients : list PantryItem) (score : Q) (missing : list (string * Q)) :
  feasibility recipe_ings user_ingredients = Some (score, missing) → (0 <= score)%Q.
Proof.
  intros (user_dict & _ & [[-> _]|(s & Hloop & ->)])%feasibility_inv; [apply Qle_refl|].
  destruct (Qlt_bool _ _); [apply Qle_refl|].
  apply score_loop_count in Hloop. apply coverage_bounds. cbn in Hloop. lia.
Qed.

(** X6: the scorer returns the score 1.0 exactly when its missing list is
    empty, and a positive score is the share of the ingredients that are
    not on the missing list. *)
Theorem X6_full_score_iff_nothing_missing (d : Database) (rid : Z)
    (user_ingredients : list PantryItem) (score : Q) (missing : list (string * Q)) :
  (get_feasibility_score rid user_ingredients d).1 = Some (score, missing) →
  let n := length (rows_of d rid) in
  (missing = [] ↔ (score == 1)%Q)
  ∧ ((0 < score)%Q → score = coverage (n - length missing) n).
Proof.
  rewrite get_feasibility_score_run. cbn [fst]. cbv zeta.
  intros (user_dict & _ & [[-> [sc Hloop]]|(s & Hloop & ->)])%feasibility_inv;
    set (n := length (rows_of d rid)).
  - apply score_loop_returned_entry in Hloop as (r & g & _ & _ & ->).
    split; [split; [discriminate|intros H; discriminate H]|].
    intros H. by apply Qlt_irrefl in H.
  - pose proof (score_loop_balance _ _ _ _ _ _ Hloop) as Hbal.
    cbn [length] in Hbal. fold n in Hbal |- *.
    assert (Hs : s = n - length missing) by lia.
    split; [split|].
    + intros ->. cbn [length] in Hs. rewrite Nat.sub_0_r in Hs. subst s.
      pose proof (coverage_full n) as Hfull.
      destruct (Qlt_bool (coverage n n) 0.5) eqn:E; [|done].
      apply Qlt_bool_iff in E. rewrite Hfull in E. discriminate E.
    + destruct (Qlt_bool (coverage s n) 0.5) eqn:E; [intros H; discriminate H|].
      intros [Hsn|Hn0]%coverage_one_inv; [| |lia].
      * apply length_zero_iff_nil. lia.
      * apply length_zero_iff_nil. lia.
    + destruct (Qlt_bool (coverage s n) 0.5); [intros H; by apply Qlt_irrefl in H|].
      intros _. by rewrite Hs.
Qed.

Lemma X6_full_score_iff_nothing_missing_witness :
  let n := length (rows_of Sample.kitchen 5) in
  ([("pepper", 10%Q)] = [] ↔ (1 # 2 == 1)%Q)
  ∧ ((0 < 1 # 2)%Q → (1 # 2) = coverage (n - length [("pepper", 10%Q)]) n).
Proof.
  apply (X6_full_score_iff_nothing_missing Sample.kitchen 5 (Sample.pantry 2)).
  vm_compute. reflexivity.
Defined.

(** X7: every entry of the returned missing list names an ingredient of the
    recipe by its canonical name, and its shortfall is at least 20% and at
    most 100% of the grams that ingredient requires. *)
Theorem X7_missing_entries_bounded (d : Database) (rid : Z)
    (user_ingredients : list PantryItem) (score : Q) (missing : list (string * Q)) :
  (get_feasibility_score rid user_ingredients d).1 = Some (score, missing) →
  Forall (entry_of (rows_of d rid)) missing.
Proof.
  rewrite get_feasibility_score_run. cbn [fst].
  intros (user_dict & Hd & [[-> [sc Hloop]]|(s & Hloop & ->)])%feasibility_inv.
  - apply score_loop_returned_entry in Hloop as (r & g & Hin & Hp & ->).
    constructor; [|done]. exists r, g. repeat split; try done; cbn [snd].
    + apply parse_quantity_str_nonneg in Hp. lra.
    + apply Qle_refl.
  - eapply score_loop_entries; [|done| |exact Hloop]; [|done].
    by eapply build_user_dict_nonneg.
Qed.

Lemma X7_missing_entries_bounded_witness :
  Forall (entry_of (rows_of Sample.kitchen 4)) [("salt", 10%Q); ("sugar", 190.00%Q)].
Proof.
  apply (X7_missing_entries_bounded Sample.kitchen 4 (Sample.pantry 2) 0).
  vm_compute. reflexivity.
Defined.

Section Monotone.

Variables d1 d2 : gmap string Q.

Hypothesis d1_le_d2 : ∀ k, (default 0 (d1 !! k) <= default 0 (d2 !! k))%Q.

Lemma vital_missing_mono (k : string) :
  vital_missing d2 k = true → vital_missing d1 k = true.
Proof.
  unfold vital_missing. intros [Hv H2]%andb_true_iff. rewrite Hv. cbn [andb].
  apply Qlt_bool_iff in H2. apply Qlt_bool_iff.
  eapply Qle_lt_trans; [apply d1_le_d2|done].
Qed.

(** With a fuller pantry map a full run of the loop stays a full run and
    counts at least as many ingredients. *)
Lemma score_loop_mono (recipe_ings : list RecipeIngredient) :
  ∀ s1 s2 m1 m2 a1 l1 out2,
    s1 ≤ s2 →
    score_loop d1 recipe_ings s1 m1 = Some (Finished a1 l1) →
    score_loop d2 recipe_ings s2 m2 = Some out2 →
    ∃ a2 l2, out2 = Finished a2 l2 ∧ a1 ≤ a2.
Proof.
  induction recipe_ings as [|r rest IH]; intros s1 s2 m1 m2 a1 l1 out2 Hs H1 H2.
  - injection H1 as <- <-. injection H2 as <-. eauto.
  - cbn [score_loop] in H1, H2.
    destruct (parse_quantity_str (qty r)) as [g|]; [|discriminate H1].
    cbn [mbind option_bind] in H1, H2.
    destruct (vital_missing d1 _) eqn:Hv1; [discriminate H1|].
    destruct (vital_missing d2 _) eqn:Hv2.
    { apply vital_missing_mono in Hv2. congruence. }
    destruct (Qle_bool (g * 0.8) (default 0%Q (d1 !! normalize_name (item r)))) eqn:E1.
    + assert (E2 : Qle_bool (g * 0.8) (default 0%Q (d2 !! normalize_name (item r))) = true).
      { apply Qle_bool_iff. apply Qle_bool_iff in E1.
        eapply Qle_trans; [exact E1|apply d1_le_d2]. }
      rewrite E2 in H2. eapply IH; [|exact H1|exact H2]. lia.
    + destruct (Qle_bool (g * 0.8) (default 0%Q (d2 !! normalize_name (item r))));
        (eapply IH; [|exact H1|exact H2]); lia.
Qed.

End Monotone.

(** X8: rows added to the pantry never lower the score of a recipe. *)
Theorem X8_more_stock_never_lowers_score (recipe_ings : list RecipeIngredient)
    (user_ingredients extra : list PantryItem)
    (score score' : Q) (missing missing' : list (string * Q)) :
  feasibility recipe_ings user_ingredients = Some (score, missing) →
  feasibility recipe_ings (user_ingredients ++ extra) = Some (score', missing') →
  (score <= score')%Q.
Proof.
  intros H1 H2. pose proof (feasibility_score_nonneg _ _ _ _ H2) as Hpos.
  apply feasibility_inv in H1 as (d1 & Hd1 & [[-> _]|(a1 & Hl1 & ->)]); [done|].
  apply feasibility_inv in H2 as (d2 & Hd2 & Hcase).
  rewrite build_user_dict_app, Hd1 in Hd2. cbn [mbind option_bind] in Hd2.
  pose proof (build_user_dict_grows _ _ _ Hd2) as Hle.
  destruct Hcase as [[-> [sc Hl2]]|(a2 & Hl2 & ->)].
  - destruct (score_loop_mono d1 d2 Hle _ _ _ _ _ _ _ _ (Nat.le_refl 0) Hl1 Hl2)
      as (? & ? & [=] & _).
  - destruct (score_loop_mono d1 d2 Hle _ _ _ _ _ _ _ _ (Nat.le_refl 0) Hl1 Hl2)
      as (a & l & [= <- <-] & Ha).
    pose proof (coverage_mono a1 a2 (length recipe_ings) Ha) as Hc.
    apply score_loop_count in Hl1. cbn in Hl1.
    pose proof (coverage_bounds a1 (length recipe_ings) ltac:(lia)) as [Hc0 _].
    clear Hpos. revert Hc Hc0.
    generalize (coverage a1 (length recipe_ings)), (coverage a2 (length recipe_ings)).
    intros c1 c2 Hc Hc0.
    destruct (Qlt_bool c1 0.5) eqn:E1; destruct (Qlt_bool c2 0.5) eqn:E2;
      try apply Qlt_bool_iff in E1; try apply Qlt_bool_false_iff in E1;
      try apply Qlt_bool_iff in E2; try apply Qlt_bool_false_iff in E2; lra.
Qed.

Lemma X8_more_stock_never_lowers_score_witness : (0 <= 2 # 3)%Q.
Proof.
  apply (X8_more_stock_never_lowers_score
           (rows_of Sample.kitchen 4) (Sample.pantry 2)
           [Sample.stock "Salts" 1 2 "litre"]
           0 (2 # 3) [("salt", 10%Q); ("sugar", 190.00%Q)] [("sugar", 190.00%Q)]);
    vm_compute; reflexivity.
Defined.

(** * The rendering of pantry quantities *)

Section DecimalText.

Import Decimal.

Lemma uint_value_shift (u : uint) :
  ∀ acc, uint_value acc u = (acc * 10 ^ Z.of_nat (nb_digits u) + uint_value 0 u)%Z.
Proof.
  induction u as [|u IH|u IH|u IH|u IH|u IH|u IH|u IH|u IH|u IH|u IH]; intros acc;
    cbn [uint_value nb_digits]; [cbn; lia|..];
    rewrite ?(IH (_ * 10)%Z), ?(IH (_ * 10 + _)%Z), Nat2Z.inj_succ, Z.pow_succ_r by lia;
    lia.
Qed.

Lemma uint_value_nonneg (u : uint) : ∀ acc, (0 <= acc)%Z → (0 <= uint_value acc u)%Z.
Proof.
  induction u as [|u IH|u IH|u IH|u IH|u IH|u IH|u IH|u IH|u IH|u IH]; intros acc Hacc;
    cbn [uint_value]; [done|..]; apply IH; lia.
Qed.

Lemma of_uint_acc_value (u : uint) :
  ∀ acc, Z.pos (Pos.of_uint_acc u acc) = uint_value (Z.pos acc) u.
Proof.
  induction u as [|u IH|u IH|u IH|u IH|u IH|u IH|u IH|u IH|u IH|u IH]; intros acc;
    cbn [uint_value Pos.of_uint_acc]; [done|..]; rewrite IH; f_equal; lia.
Qed.

Lemma of_uint_value (u : uint) : Z.of_N (Pos.of_uint u) = uint_value 0 u.
Proof.
  induction u as [|u IH|u IH|u IH|u IH|u IH|u IH|u IH|u IH|u IH|u IH];
    cbn [uint_value Pos.of_uint]; [done|exact IH|..];
    cbn [Z.of_N]; by rewrite of_uint_acc_value.
Qed.

Lemma string_of_uint_digits (u : uint) :
  digits_only (NilEmpty.string_of_uint u) = true
  ∧ String.length (NilEmpty.string_of_uint u) = nb_digits u
  ∧ ∀ acc, digits_value acc (NilEmpty.string_of_uint u) = uint_value acc u.
Proof.
  induction u as [|u IH|u IH|u IH|u IH|u IH|u IH|u IH|u IH|u IH|u IH];
    [done|..]; destruct IH as (H1 & H2 & H3);
    cbn [NilEmpty.string_of_uint digits_only String.length nb_digits
         digits_value uint_value];
    (split; [by rewrite H1|split; [by rewrite H2|]]);
    intros acc; rewrite H3; f_equal; vm_compute (Z.of_nat (nat_of_ascii _)); lia.
Qed.

Lemma to_uint_nonnil (n : N) : N.to_uint n ≠ Nil.
Proof. destruct n; [done|]. apply DecimalPos.Unsigned.to_uint_nonnil. Qed.

Lemma str_N_unfold (n : N) : str_N n = NilEmpty.string_of_uint (N.to_uint n).
Proof.
  unfold str_N, NilZero.string_of_uint. pose proof (to_uint_nonnil n).
  by destruct (N.to_uint n).
Qed.

Lemma str_N_digits (n : N) : digits_only (str_N n) = true.
Proof. rewrite str_N_unfold. apply string_of_uint_digits. Qed.

Lemma str_N_value (n : N) : digits_value 0 (str_N n) = Z.of_N n.
Proof.
  rewrite str_N_unfold.
  destruct (string_of_uint_digits (N.to_uint n)) as (_ & _ & ->).
  by rewrite <- of_uint_value, (DecimalN.Unsigned.of_to n : Pos.of_uint _ = n).
Qed.

Lemma str_N_nonempty (n : N) : ∃ c r, str_N n = String c r.
Proof.
  rewrite str_N_unfold. pose proof (to_uint_nonnil n).
  destruct (N.to_uint n); [done|..]; cbn; eauto.
Qed.

(** A numeral without leading zeros is zero or at least a power of ten. *)
Lemma unorm_fixed_lower_bound (u : uint) :
  unorm u = u → u = zero ∨ (10 ^ Z.of_nat (nb_digits u - 1) <= uint_value 0 u)%Z.
Proof.
  intros Hu.
  destruct u as [|l|l|l|l|l|l|l|l|l|l];
    [discriminate Hu| |right..];
    try (cbn [uint_value nb_digits]; rewrite uint_value_shift, Nat.sub_succ, Nat.sub_0_r;
         pose proof (uint_value_nonneg l 0 ltac:(done));
         pose proof (Z.pow_pos_nonneg 10 (Z.of_nat (nb_digits l)) ltac:(done) ltac:(lia));
         nia).
  left. rewrite DecimalFacts.unorm_D0 in Hu.
  assert (Hcase : l = Nil ∨ l ≠ Nil) by (destruct l; auto).
  destruct Hcase as [->|Hl]; [done|].
  pose proof (DecimalFacts.nb_digits_unorm l Hl) as Hnb.
  rewrite Hu in Hnb. cbn [nb_digits] in Hnb. lia.
Qed.

Lemma str_N_length (n : N) (k : nat) :
  0 < k → (n < 10 ^ N.of_nat k)%N → String.length (str_N n) ≤ k.
Proof.
  intros Hk Hn. rewrite str_N_unfold.
  destruct (string_of_uint_digits (N.to_uint n)) as (_ & -> & _).
  assert (Hnorm : unorm (N.to_uint n) = N.to_uint n).
  { rewrite <- DecimalN.Unsigned.to_of. by rewrite DecimalN.Unsigned.of_to. }
  assert (Hval : uint_value 0 (N.to_uint n) = Z.of_N n).
  { by rewrite <- of_uint_value, (DecimalN.Unsigned.of_to n : Pos.of_uint _ = n). }
  destruct (unorm_fixed_lower_bound _ Hnorm) as [->|Hlow]; [cbn; lia|].
  rewrite Hval in Hlow.
  assert (Hlt : (10 ^ Z.of_nat (nb_digits (N.to_uint n) - 1) < 10 ^ Z.of_nat k)%Z).
  { eapply Z.le_lt_trans; [exact Hlow|].
    change 10%Z with (Z.of_N 10). rewrite <- nat_N_Z, <- N2Z.inj_pow. lia. }
  apply Z.pow_lt_mono_r_iff in Hlt; lia.
Qed.

Lemma append_length (x y : string) :
  String.length (x +:+ y) = String.length x + String.length y.
Proof. induction x as [|c x IH]; [done|]. rewrite append_cons. cbn. by rewrite IH. Qed.

Lemma digits_value_shift (x : string) :
  ∀ acc, digits_value acc x
         = (acc * 10 ^ Z.of_nat (String.length x) + digits_value 0 x)%Z.
Proof.
  induction x as [|c x IH]; intros acc; cbn [digits_value String.length]; [cbn; lia|].
  rewrite IH, (IH (0 * 10 + _)%Z), Nat2Z.inj_succ, Z.pow_succ_r by lia. lia.
Qed.

Lemma digits_value_app (x y : string) (acc : Z) :
  digits_value acc (x +:+ y) = digits_value (digits_value acc x) y.
Proof.
  revert acc. induction x as [|c x IH]; intros acc; [done|].
  rewrite append_cons. cbn [digits_value]. apply IH.
Qed.

Lemma digits_only_app (x y : string) :
  digits_only (x +:+ y) = digits_only x && digits_only y.
Proof.
  induction x as [|c x IH]; [done|]. rewrite append_cons. cbn [digits_only].
  by rewrite IH, andb_assoc.
Qed.

Lemma zeros_succ (k : nat) :
  String.concat "" (replicate (S k) "0") = String "0" (String.concat "" (replicate k "0")).
Proof. by destruct k. Qed.

Lemma zeros_props (k : nat) :
  digits_only (String.concat "" (replicate k "0")) = true
  ∧ String.length (String.concat "" (replicate k "0")) = k
  ∧ digits_value 0 (String.concat "" (replicate k "0")) = 0%Z.
Proof.
  induction k as [|k (H1 & H2 & H3)]; [done|]. rewrite zeros_succ.
  cbn [digits_only String.length digits_value]. by rewrite H1, H2.
Qed.

(** [zfill] pads a text of digits to the width without changing its
    value. *)
Lemma zfill_props (width : nat) (x : string) :
  digits_only x = true → String.length x ≤ width →
  digits_only (zfill width x) = true
  ∧ String.length (zfill width x) = width
  ∧ digits_value 0 (zfill width x) = digits_value 0 x.
Proof.
  intros Hx Hlen. unfold zfill.
  destruct (zeros_props (width - String.length x)) as (H1 & H2 & H3).
  rewrite digits_only_app, append_length, digits_value_app, H1, H2, H3, Hx.
  repeat split; [lia].
Qed.

(** The scan of a text of digits. *)
Lemma scan_string_digits (x : string) :
  digits_only x = true →
  ∀ st, PyFloat.scan_string st x
        = {| PyFloat.mant := digits_value (PyFloat.mant st) x;
             PyFloat.frac_digits :=
               if (0 <? PyFloat.dots st)%nat
               then PyFloat.frac_digits st + String.length x
               else PyFloat.frac_digits st;
             PyFloat.dots := PyFloat.dots st;
             PyFloat.digits := PyFloat.digits st + String.length x |}.
Proof.
  induction x as [|c x IH]; intros Hx st.
  - destruct st as [m f [|dt] dg]; cbn; by rewrite ?Nat.add_0_r.
  - cbn [digits_only] in Hx. apply andb_true_iff in Hx as [Hc Hx].
    cbn [PyFloat.scan_string]. rewrite (IH Hx). unfold PyFloat.scan_char. rewrite Hc.
    cbn [PyFloat.mant PyFloat.frac_digits PyFloat.dots PyFloat.digits
         digits_value String.length].
    f_equal; [|lia]. destruct (0 <? PyFloat.dots st)%nat; lia.
Qed.

Lemma scan_string_app (x y : string) (st : PyFloat.scan) :
  PyFloat.scan_string st (x +:+ y) = PyFloat.scan_string (PyFloat.scan_string st x) y.
Proof.
  revert st. induction x as [|c x IH]; intros st; [done|].
  rewrite append_cons. cbn [PyFloat.scan_string]. apply IH.
Qed.

Lemma take_class_digits (x rest : string) :
  digits_only x = true → Regex.take_class (x +:+ rest) = x +:+ Regex.take_class rest.
Proof.
  induction x as [|c x IH]; [done|]. cbn [digits_only]. intros [Hc Hx]%andb_true_iff.
  rewrite !append_cons. cbn [Regex.take_class]. unfold Regex.in_class.
  by rewrite Hc, IH.
Qed.

Lemma numeric_text_app (x y : string) :
  numeric_text (x +:+ y) = numeric_text x && numeric_text y.
Proof.
  induction x as [|c x IH]; [done|]. rewrite append_cons. cbn [numeric_text].
  by rewrite IH, andb_assoc.
Qed.

Lemma digits_only_numeric (x : string) : digits_only x = true → numeric_text x = true.
Proof.
  induction x as [|c x IH]; [done|]. cbn [digits_only numeric_text].
  intros [Hc Hx]%andb_true_iff. unfold numeric_char, Regex.in_class.
  by rewrite Hc, IH.
Qed.

Lemma numeric_char_lower (c : ascii) :
  numeric_char c = true → PyStr.lower_ascii c = c.
Proof.
  destruct c as [[] [] [] [] [] [] [] []]; vm_compute; intros H;
    (reflexivity || discriminate H).
Qed.

Lemma numeric_char_not_space (c : ascii) :
  numeric_char c = true → PyStr.is_space c = false.
Proof.
  destruct c as [[] [] [] [] [] [] [] []]; vm_compute; intros H;
    (reflexivity || discriminate H).
Qed.

Lemma lower_app (x y : string) : PyStr.lower (x +:+ y) = PyStr.lower x +:+ PyStr.lower y.
Proof.
  induction x as [|c x IH]; [done|]. rewrite append_cons. cbn [PyStr.lower].
  by rewrite IH.
Qed.

Lemma lower_numeric (x : string) : numeric_text x = true → PyStr.lower x = x.
Proof.
  induction x as [|c x IH]; [done|]. cbn [numeric_text PyStr.lower].
  intros [Hc Hx]%andb_true_iff. by rewrite numeric_char_lower, IH.
Qed.

(** A key that starts with a letter is not found inside a rendered number. *)
Lemma contains_numeric_prefix (k0 : ascii) (kr x y : string) :
  numeric_char k0 = false → numeric_text x = true →
  PyStr.contains (String k0 kr) (x +:+ y) = PyStr.contains (String k0 kr) y.
Proof.
  intros Hk. induction x as [|c x IH]; [done|]. cbn [numeric_text].
  intros [Hc Hx]%andb_true_iff. rewrite append_cons. cbn [PyStr.contains PyStr.startswith].
  destruct (Ascii.eqb k0 c) eqn:E; [|by apply IH].
  apply Ascii.eqb_eq in E. congruence.
Qed.

Lemma append_nil_r (x : string) : x +:+ "" = x.
Proof. induction x as [|c x IH]; [done|]. rewrite append_cons. by rewrite IH. Qed.

Lemma of_string_scanned (text : string) (st : PyFloat.scan) :
  PyFloat.scan_string (PyFloat.Scan 0 0 0 0) text = st →
  0 < PyFloat.digits st → PyFloat.dots st ≤ 1 →
  PyFloat.of_string text
  = Some (PyFloat.mant st # Pos.of_nat (10 ^ PyFloat.frac_digits st)).
Proof.
  intros Hst Hd Hp. unfold PyFloat.of_string. rewrite Hst.
  apply Nat.ltb_lt in Hd. apply Nat.leb_le in Hp. by rewrite Hd, Hp.
Qed.

(** The digits of a rendered quantity, without the sign: the integer part
    and, for a positive number of places, the point and the padded
    fraction. *)
Lemma magnitude_text (a : N) (places : nat) :
  let p := (10 ^ N.of_nat places)%N in
  let body := str_N (a / p) +:+
              (if (places =? 0)%nat then "" else "." +:+ zfill places (str_N (a mod p))) in
  (∀ rest, Regex.take_class (body +:+ rest) = body +:+ Regex.take_class rest)
  ∧ PyFloat.of_string body = Some (Z.of_N a # Pos.of_nat (10 ^ places))
  ∧ numeric_text body = true
  ∧ ∃ c r, body = String c r ∧ Regex.is_digit c = true.
Proof.
  intros p body.
  assert (Hp : (0 < p)%N) by (apply N.neq_0_lt_0, N.pow_nonzero; discriminate).
  pose proof (str_N_digits (a / p)) as Hi.
  pose proof (str_N_value (a / p)) as Hiv.
  destruct (str_N_nonempty (a / p)) as (c & r & Hcr).
  assert (Hlen : 0 < String.length (str_N (a / p))) by (rewrite Hcr; cbn; lia).
  assert (Hc : Regex.is_digit c = true).
  { rewrite Hcr in Hi. cbn [digits_only] in Hi. by apply andb_true_iff in Hi as [-> _]. }
  assert (Hhead : ∃ c r, body = String c r ∧ Regex.is_digit c = true).
  { unfold body. rewrite Hcr, append_cons. eauto. }
  destruct (places =? 0)%nat eqn:Hz.
  - apply Nat.eqb_eq in Hz. subst places. unfold body. rewrite append_nil_r.
    split; [|split; [|split; [|by exists c, r]]].
    + intros rest. by apply take_class_digits.
    + erewrite of_string_scanned; [|by apply scan_string_digits|..];
        cbn [PyFloat.digits PyFloat.dots PyFloat.mant PyFloat.frac_digits Nat.ltb Nat.leb];
        [|lia|lia].
      rewrite Hiv. do 2 f_equal. unfold p. cbn. by rewrite N.div_1_r.
    + by apply digits_only_numeric.
  - apply Nat.eqb_neq in Hz.
    assert (Hmod : (a mod p < p)%N) by (apply N.mod_lt; lia).
    destruct (zfill_props places (str_N (a mod p)) (str_N_digits _))
      as (Hf1 & Hf2 & Hf3); [apply str_N_length; [lia|exact Hmod]|].
    rewrite str_N_value in Hf3.
    set (F := zfill places (str_N (a mod p))) in *.
    split; [|split; [|split; [|exact Hhead]]].
    + intros rest. unfold body. rewrite !append_assoc.
      rewrite take_class_digits by done. f_equal.
      rewrite !append_cons. cbn [Regex.take_class].
      change (Regex.in_class ".") with true. cbv iota. f_equal.
      change ("" +:+ F +:+ rest) with (F +:+ rest).
      change ("" +:+ F +:+ Regex.take_class rest) with (F +:+ Regex.take_class rest).
      by apply take_class_digits.
    + assert (Hscan : PyFloat.scan_string (PyFloat.Scan 0 0 0 0) body
                      = {| PyFloat.mant := digits_value (digits_value 0 (str_N (a / p))) F;
                           PyFloat.frac_digits := String.length F;
                           PyFloat.dots := 1;
                           PyFloat.digits :=
                             String.length (str_N (a / p)) + String.length F |}).
      { unfold body. rewrite scan_string_app, (scan_string_digits _ Hi).
        rewrite append_cons. change ("" +:+ F) with F. cbn [PyFloat.scan_string].
        unfold PyFloat.scan_char at 1. change (Regex.is_digit ".") with false. cbv iota.
        rewrite (scan_string_digits _ Hf1).
        cbn [PyFloat.digits PyFloat.dots PyFloat.mant PyFloat.frac_digits].
        reflexivity. }
      rewrite (of_string_scanned _ _ Hscan);
        cbn [PyFloat.digits PyFloat.dots PyFloat.mant PyFloat.frac_digits]; [|lia|lia].
      rewrite Hf2, Hiv, digits_value_shift, Hf2, Hf3. do 2 f_equal.
      pose proof (N.div_mod a p ltac:(lia)) as Hdm.
      assert (Hpz : Z.of_N p = (10 ^ Z.of_nat places)%Z).
      { unfold p. by rewrite N2Z.inj_pow, nat_N_Z. }
      rewrite <- Hpz. lia.
    + unfold body. rewrite numeric_text_app, (digits_only_numeric _ Hi).
      rewrite append_cons. cbn [numeric_text andb]. change ("" +:+ F) with F.
      change (numeric_char ".") with true. by rewrite (digits_only_numeric _ Hf1).
Qed.

End DecimalText.

Section PantryText.

Lemma convert_numeric_prefix (x u : string) (amount : Q) :
  numeric_text x = true →
  convert UNIT_MAP (x +:+ u) amount = convert UNIT_MAP u amount.
Proof.
  intros Hx. unfold UNIT_MAP. cbn [convert].
  by rewrite !contains_numeric_prefix by first [exact Hx | reflexivity].
Qed.

(** The f-string of a pantry quantity and a unit made of letters parses
    to the magnitude of the quantity, converted by the unit. *)
Lemma parse_rendered (q : Decimal) (u : string) :
  PyStr.lower u = u → PyStr.rstrip u = u → u ≠ "" → Regex.take_class u = "" →
  parse_quantity_str (str_Decimal q +:+ u)
  = Some (convert UNIT_MAP u (Z.abs (coefficient q) # Pos.of_nat (10 ^ places q))).
Proof.
  intros Hlow Hrs Hne Htc.
  destruct (magnitude_text (Z.abs_N (coefficient q)) (places q))
    as (Htake & Hof & Hnum & c & r & Hbody & Hc).
  cbv zeta in Htake, Hof, Hnum, Hbody.
  set (body := str_N _ +:+ _) in *.
  set (sign := if (coefficient q <? 0)%Z then "-" else "").
  assert (Hstr : str_Decimal q = sign +:+ body) by reflexivity.
  assert (Hsign : sign = "" ∨ sign = "-") by (unfold sign; destruct (_ <? _)%Z; auto).
  assert (Hnt : numeric_text (sign +:+ body) = true).
  { rewrite numeric_text_app, Hnum. by destruct Hsign as [-> | ->]. }
  assert (Hhead : ∃ c0 r0, (sign +:+ body) +:+ u = String c0 r0
                           ∧ PyStr.is_space c0 = false).
  { destruct Hsign as [-> | ->].
    - exists c, (r +:+ u). change ("" +:+ body) with body. rewrite Hbody, append_cons.
      split; [done|]. apply numeric_char_not_space. unfold numeric_char, Regex.in_class.
      by rewrite Hc.
    - exists "-"%char, (body +:+ u). by rewrite append_assoc. }
  assert (Hsearch : Regex.search ((sign +:+ body) +:+ u) = Some body).
  { assert (Hb : Regex.search (body +:+ u) = Some body).
    { rewrite <- (append_nil_r body) at 2. rewrite <- Htc, <- Htake.
      rewrite Hbody, append_cons. cbn [Regex.search]. unfold Regex.in_class.
      by rewrite Hc. }
    rewrite append_assoc. by destruct Hsign as [-> | ->]. }
  unfold parse_quantity_str.
  rewrite Hstr, lower_app, (lower_numeric _ Hnt), Hlow.
  assert (Hstrip : PyStr.strip ((sign +:+ body) +:+ u) = (sign +:+ body) +:+ u).
  { unfold PyStr.strip. destruct Hhead as (c0 & r0 & Hs & Hc0).
    rewrite Hs at 1. rewrite lstrip_fixed, <- Hs by done.
    rewrite rstrip_append, Hrs; [done|]. by rewrite Hrs. }
  rewrite Hstrip. unfold amount_of. rewrite Hsearch, Hof.
  cbn [mbind option_bind]. rewrite N2Z.inj_abs_N.
  by rewrite convert_numeric_prefix.
Qed.

Lemma parse_pantry_row (ing : PantryItem) :
  unit ing ∈ ENUM_UNITS →
  parse_quantity_str (str_Decimal (quantity ing) +:+ unit ing) = Some (row_grams ing).
Proof.
  intros Hu. unfold ENUM_UNITS in Hu.
  rewrite !elem_of_cons, elem_of_nil in Hu. unfold row_grams.
  destruct Hu as [->|[->|[->|[]]]]; by rewrite parse_rendered.
Qed.

End PantryText.

(** * The pantry side of the scorer *)

(** X9: the text the scorer builds from a pantry row, quantity followed by
    unit, always parses: to the magnitude of the quantity (a minus sign is
    not read) times 1000 for litres and times 1 for grams and pieces. *)
Theorem X9_pantry_row_parses (ing : PantryItem) :
  schema_row ing →
  parse_quantity_str (str_Decimal (quantity ing) +:+ unit ing) = Some (row_grams ing).
Proof. intros [_ Hu]. by apply parse_pantry_row. Qed.

Lemma X9_pantry_row_parses_witness :
  parse_quantity_str (str_Decimal {| coefficient := -150; places := 2 |} +:+ "litre")
  = Some (row_grams {| name := "Milk";
                       quantity := {| coefficient := -150; places := 2 |};
                       unit := "litre" |}).
Proof.
  apply (X9_pantry_row_parses
           {| name := "Milk"; quantity := {| coefficient := -150; places := 2 |};
              unit := "litre" |}).
  split; [reflexivity|]. unfold ENUM_UNITS. cbn [unit]. set_solver.
Defined.

Section PantryTotals.

Lemma build_user_dict_totals (user_ingredients : list PantryItem) :
  Forall schema_row user_ingredients →
  ∀ d0, ∃ d,
    build_user_dict d0 user_ingredients = Some d
    ∧ ∀ k, (default 0 (d !! k) == default 0 (d0 !! k) + held_grams k user_ingredients)%Q.
Proof.
  induction 1 as [|ing rest [_ Hu] _ IH]; intros d0.
  - exists d0. split; [done|]. intros k. cbn [held_grams]. ring.
  - cbn [build_user_dict]. unfold add_to_user_dict.
    rewrite (parse_pantry_row ing Hu). cbn [mbind option_bind].
    destruct (IH (<[normalize_name (name ing) :=
                      (default 0 (d0 !! normalize_name (name ing)) + row_grams ing)%Q]> d0))
      as (d & Hd & Hk).
    exists d. split; [exact Hd|]. intros k. rewrite Hk, lookup_insert.
    cbn [held_grams]. destruct (decide (normalize_name (name ing) = k)) as [->|_].
    + cbn [default from_option id]. ring.
    + ring.
Qed.

(** The loop over the recipe returns when every quantity it reads is
    numeric. *)
Lemma score_loop_total (user_dict : gmap string Q) (recipe_ings : list RecipeIngredient) :
  Forall (fun r => is_Some (parse_quantity_str (qty r))) recipe_ings →
  ∀ s m, is_Some (score_loop user_dict recipe_ings s m).
Proof.
  induction 1 as [|r rest [g Hg] _ IH]; intros s m; [by eexists|].
  cbn [score_loop]. rewrite Hg. cbn [mbind option_bind].
  destruct (vital_missing _ _); [by eexists|].
  destruct (Qle_bool _ _); apply IH.
Qed.

End PantryTotals.

(** X10: whatever the rows of the pantry table are, building the pantry
    map succeeds, and under every canonical name the map holds the sum of the
    grams of the rows with that name (rows of equal name accumulate). *)
Theorem X10_pantry_map_sums_rows (user_ingredients : list PantryItem) :
  Forall schema_row user_ingredients →
  ∃ user_dict,
    build_user_dict ∅ user_ingredients = Some user_dict
    ∧ ∀ k, (default 0 (user_dict !! k) == held_grams k user_ingredients)%Q.
Proof.
  intros H. destruct (build_user_dict_totals _ H ∅) as (d & Hd & Hk).
  exists d. split; [exact Hd|]. intros k. rewrite Hk, lookup_empty. cbn. ring.
Qed.

Lemma X10_pantry_map_sums_rows_witness :
  ∃ user_dict,
    build_user_dict ∅ (Sample.pantry 2 ++ [Sample.stock "Eggs" 4 2 "number"])
    = Some user_dict
    ∧ ∀ k, (default 0 (user_dict !! k)
            == held_grams k (Sample.pantry 2 ++ [Sample.stock "Eggs" 4 2 "number"]))%Q.
Proof.
  apply (X10_pantry_map_sums_rows (Sample.pantry 2 ++ [Sample.stock "Eggs" 4 2 "number"])).
  repeat constructor; unfold ENUM_UNITS; cbn [unit Sample.stock]; set_solver.
Defined.

(** X11: a recipe without ingredient rows gets the score 1.0 and an empty
    missing list, whatever the pantry holds. *)
Theorem X11_recipe_without_rows_scores_one (d : Database) (rid : Z)
    (user_ingredients : list PantryItem) :
  Forall schema_row user_ingredients →
  rows_of d rid = [] →
  get_feasibility_score rid user_ingredients d = (Some (1%Q, []), d).
Proof.
  intros Hp Hrows. rewrite get_feasibility_score_run, Hrows. f_equal.
  destruct (build_user_dict_totals _ Hp ∅) as (ud & Hd & _).
  unfold feasibility. by rewrite Hd.
Qed.

Lemma X11_recipe_without_rows_scores_one_witness :
  get_feasibility_score 99 (Sample.pantry 2) Sample.kitchen
  = (Some (1%Q, []), Sample.kitchen).
Proof.
  apply (X11_recipe_without_rows_scores_one Sample.kitchen 99 (Sample.pantry 2)).
  - repeat constructor; unfold ENUM_UNITS; cbn [unit Sample.stock]; set_solver.
  - vm_compute. reflexivity.
Defined.

(** X12: the scorer returns, for every pantry, as soon as no quantity of
    the recipe contains a point. *)
Theorem X12_scorer_returns_without_points (d : Database) (rid : Z)
    (user_ingredients : list PantryItem) :
  Forall schema_row user_ingredients →
  Forall (fun r => PyStr.contains "." (qty r) = false) (rows_of d rid) →
  is_Some (get_feasibility_score rid user_ingredients d).1.
Proof.
  intros Hp Hrows. rewrite get_feasibility_score_run. cbn [fst].
  destruct (build_user_dict_totals _ Hp ∅) as (ud & Hd & _).
  unfold feasibility. rewrite Hd. cbn [mbind option_bind].
  destruct (score_loop_total ud (rows_of d rid)) with (s := 0) (m := @nil (string * Q))
    as [out Hout].
  { eapply Forall_impl; [exact Hrows|]. intros r Hr.
    by apply parse_quantity_str_total_without_point. }
  rewrite Hout. cbn [mbind option_bind].
  destruct out; [by eexists|]. destruct (Qlt_bool _ _); by eexists.
Qed.

Lemma X12_scorer_returns_without_points_witness :
  is_Some (get_feasibility_score 4 (Sample.pantry 2) Sample.kitchen).1.
Proof.
  apply (X12_scorer_returns_without_points Sample.kitchen 4 (Sample.pantry 2)).
  - repeat constructor; unfold ENUM_UNITS; cbn [unit Sample.stock]; set_solver.
  - assert (Hrows : rows_of Sample.kitchen 4
                    = [Sample.ri "egg" "2"; Sample.ri "salt" "10g"; Sample.ri "Sugars" "1 cup"])
      by (vm_compute; reflexivity).
    rewrite Hrows. repeat constructor.
Defined.

Section RowOrder.

(** Rows of different canonical names write different keys of [user_dict]:
    two rounds of the pantry loop can be exchanged. *)
Lemma add_to_user_dict_exchange (d d' : gmap string PrimFloat.float) (x y : PantryItem) :
  normalize_name (name x) ≠ normalize_name (name y) →
  (d1 ← Binary64.add_to_user_dict d x; Binary64.add_to_user_dict d1 y) = Binary64.Returns d' →
  (d1 ← Binary64.add_to_user_dict d y; Binary64.add_to_user_dict d1 x) = Binary64.Returns d'.
Proof.
  intros Hne. unfold Binary64.add_to_user_dict.
  destruct (Binary64.parse_quantity_str (str_Decimal (quantity x) +:+ unit x)) as [gx| |];
    cbn [mbind Binary64.outcome_mbind]; try done.
  destruct (Binary64.parse_quantity_str (str_Decimal (quantity y) +:+ unit y)) as [gy| |];
    cbn [mbind Binary64.outcome_mbind]; try done.
  intros [= <-]. f_equal.
  rewrite !lookup_insert_ne by done. by apply insert_insert_ne.
Qed.

Lemma build_user_dict_exchange (p p' : list PantryItem) :
  p ≡ₚ p' →
  NoDup ((fun ing => normalize_name (name ing)) <$> p) →
  ∀ d d', Binary64.build_user_dict d p = Binary64.Returns d' →
          Binary64.build_user_dict d p' = Binary64.Returns d'.
Proof.
  induction 1 as [|x l l' Hperm IH|x y l|l l' l'' Hperm1 IH1 Hperm2 IH2];
    intros Hnd d d'.
  - done.
  - cbn [Binary64.build_user_dict]. apply NoDup_cons in Hnd as [_ Hnd].
    destruct (Binary64.add_to_user_dict d x) as [d1| |];
      cbn [mbind Binary64.outcome_mbind]; try done.
    by apply IH.
  - cbn [Binary64.build_user_dict].
    rewrite !fmap_cons in Hnd. apply NoDup_cons in Hnd as [Hy _].
    apply not_elem_of_cons in Hy as [Hne _].
    pose proof (add_to_user_dict_exchange d) as Hex.
    destruct (Binary64.add_to_user_dict d y) as [dy| |] eqn:Ey;
      cbn [mbind Binary64.outcome_mbind]; try done.
    destruct (Binary64.add_to_user_dict dy x) as [dyx| |] eqn:Eyx;
      cbn [mbind Binary64.outcome_mbind]; try done.
    intros Hrest.
    specialize (Hex dyx y x Hne). rewrite Ey in Hex.
    cbn [mbind Binary64.outcome_mbind] in Hex. specialize (Hex Eyx).
    destruct (Binary64.add_to_user_dict d x) as [dx| |];
      cbn [mbind Binary64.outcome_mbind] in Hex |- *; try done.
    by rewrite Hex.
  - intros Hd. apply IH2; [by rewrite <- Hperm1|]. by apply IH1.
Qed.

End RowOrder.

(** X13: when no two pantry rows have the same canonical name, the result
    of the scorer does not depend on the order in which the pantry rows
    arrive (the SELECT that fetches them has no ORDER BY): a call that
    returns for one order returns the same score and the same missing list
    for every other order, in binary64 arithmetic. *)
Theorem X13_pantry_order_is_irrelevant (recipe_ings : list RecipeIngredient)
    (user_ingredients user_ingredients' : list PantryItem)
    (r : PrimFloat.float * list (string * PrimFloat.float)) :
  user_ingredients ≡ₚ user_ingredients' →
  NoDup ((fun ing => normalize_name (name ing)) <$> user_ingredients) →
  Binary64.feasibility recipe_ings user_ingredients = Binary64.Returns r →
  Binary64.feasibility recipe_ings user_ingredients' = Binary64.Returns r.
Proof.
  intros Hperm Hnd. unfold Binary64.feasibility.
  destruct (Binary64.build_user_dict ∅ user_ingredients) as [d| |] eqn:Hd;
    cbn [mbind Binary64.outcome_mbind]; try done.
  by rewrite (build_user_dict_exchange _ _ Hperm Hnd ∅ d Hd).
Qed.

Lemma X13_pantry_order_is_irrelevant_witness :
  Binary64.feasibility (rows_of Sample.kitchen 4) (reverse (Sample.pantry 2))
  = Binary64.Returns
      (Binary64.decimal 0 0,
       [("salt", Binary64.decimal 10 0); ("sugar", Binary64.decimal 190 0)]).
Proof.
  apply (X13_pantry_order_is_irrelevant (rows_of Sample.kitchen 4)
           (Sample.pantry 2) (reverse (Sample.pantry 2))).
  - symmetry. apply reverse_Permutation.
  - refine (bool_decide_unpack _ _). vm_compute. exact I.
  - vm_compute. reflexivity.
Defined.

(** Rows of the same canonical name are summed in the order they arrive,
    and the binary64 sum depends on it: 0.10 + 0.20 + 0.30 is
    0.6000000000000001 and 0.30 + 0.20 + 0.10 is 0.6, so against "0.75 g"
    (80% of which is 0.6000000000000001) the first order is satisfied and
    the second is [0.75 - 0.6] short. *)
Lemma pantry_order_matters_for_equal_names :
  Binary64.feasibility [Sample.ri "salt" "0.75 g"] Sample.salts
  = Binary64.Returns (Binary64.decimal 1 0, [])
  ∧ Binary64.feasibility [Sample.ri "salt" "0.75 g"] (reverse Sample.salts)
    = Binary64.Returns
        (Binary64.decimal 0 0,
         [("salt", PrimFloat.sub (Binary64.decimal 75 2) (Binary64.decimal 6 1))]).
Proof. split; vm_compute; reflexivity. Qed.

(** * Further properties of the ranking and of the chat endpoint *)

(** X14: the shortlist holds the best candidates: the entries of positive
    score that are left out score no more than any entry kept, and the
    shortlist has 3 entries as soon as 3 candidates have a positive score. *)
Theorem X14_shortlist_holds_the_best (d d' : Database) (candidate_recipes : list Recipe)
    (user_ingredients : list PantryItem) (top_recipes : list Scored) :
  rank candidate_recipes user_ingredients d = (Some top_recipes, d') →
  ∃ all rest : list Scored,
    map recipe_of all = candidate_recipes
    ∧ Forall (scored_by d user_ingredients) all
    ∧ top_recipes ++ rest ≡ₚ filter positive_score all
    ∧ (∀ t e, t ∈ top_recipes → e ∈ rest → (score_of e <= score_of t)%Q)
    ∧ length top_recipes = min 3 (length (filter positive_score all)).
Proof.
  intros H. unfold rank, sorted_candidates, mbind, db_mbind, db_bind in H.
  destruct (score_candidates candidate_recipes user_ingredients [] d)
    as [[res|] d''] eqn:Hsc; [|discriminate H].
  cbn in H. injection H as <- <-.
  destruct (score_candidates_run _ _ _ _ _ _ Hsc) as (-> & all & Hc & Hall & ->).
  cbn [app]. set (sorted := sort_desc (filter positive_score all)).
  exists all, (drop 3 sorted). split; [done|]. split; [done|].
  split; [by rewrite take_drop; apply sort_desc_perm|]. split.
  - intros t e Ht He.
    pose proof (sort_desc_sorted (filter positive_score all)) as Hs.
    fold sorted in Hs. rewrite <- (take_drop 3 sorted) in Hs.
    exact (StronglySorted_app_1_elem_of _ _ _ _ _ Hs Ht He).
  - rewrite length_take. unfold sorted. by rewrite sort_desc_perm.
Qed.

Lemma X14_shortlist_holds_the_best_witness :
  ∃ all rest : list Scored,
    map recipe_of all = recipes Sample.kitchen
    ∧ Forall (scored_by Sample.kitchen (ingredients Sample.kitchen)) all
    ∧ [ (Sample.recipe 2 "Omelette", 2 # 2, []);
        (Sample.recipe 6 "Boiled eggs", 1 # 1, []);
        (Sample.recipe 3 "Salted eggs", 1 # 2, [("salt", 10%Q)]) ] ++ rest
      ≡ₚ filter positive_score all
    ∧ (∀ t e,
         t ∈ [ (Sample.recipe 2 "Omelette", 2 # 2, []);
               (Sample.recipe 6 "Boiled eggs", 1 # 1, []);
               (Sample.recipe 3 "Salted eggs", 1 # 2, [("salt", 10%Q)]) ] →
         e ∈ rest → (score_of e <= score_of t)%Q)
    ∧ length [ (Sample.recipe 2 "Omelette", 2 # 2, []);
               (Sample.recipe 6 "Boiled eggs", 1 # 1, []);
               (Sample.recipe 3 "Salted eggs", 1 # 2, [("salt", 10%Q)]) ]
      = min 3 (length (filter positive_score all)).
Proof.
  apply (X14_shortlist_holds_the_best Sample.kitchen Sample.kitchen
           (recipes Sample.kitchen) (ingredients Sample.kitchen)).
  vm_compute. reflexivity.
Defined.

Section ChatFacts.

Lemma score_candidates_state (d : Database) (user_ingredients : list PantryItem)
    (candidate_recipes : list Recipe) :
  ∀ acc, (score_candidates candidate_recipes user_ingredients acc d).2 = d.
Proof.
  induction candidate_recipes as [|r rest IH]; intros acc; [done|].
  cbn [score_candidates]. unfold mbind, db_mbind, db_bind.
  rewrite get_feasibility_score_run.
  destruct (feasibility _ _) as [[score missing]|]; [|done].
  destruct (Qlt_bool 0 score); apply IH.
Qed.

(** The scoring loop of [chat] raises exactly when the scorer raises on one
    of the candidates. *)
Lemma score_candidates_none (d : Database) (user_ingredients : list PantryItem)
    (candidate_recipes : list Recipe) :
  ∀ acc,
    (score_candidates candidate_recipes user_ingredients acc d).1 = None
    ↔ ∃ r, r ∈ candidate_recipes
           ∧ (get_feasibility_score (recipe_id r) user_ingredients d).1 = None.
Proof.
  induction candidate_recipes as [|r rest IH]; intros acc.
  - split; [discriminate|]. intros (r & Hr & _). by apply elem_of_nil in Hr.
  - cbn [score_candidates]. unfold mbind, db_mbind, db_bind.
    destruct (get_feasibility_score (recipe_id r) user_ingredients d)
      as [[[score missing]|] d1] eqn:Hg.
    + assert (d1 = d) as ->.
      { rewrite get_feasibility_score_run in Hg. by injection Hg. }
      assert (Hrest : (∃ r0, r0 ∈ r :: rest
                        ∧ (get_feasibility_score (recipe_id r0) user_ingredients d).1 = None)
                      ↔ ∃ r0, r0 ∈ rest
                        ∧ (get_feasibility_score (recipe_id r0) user_ingredients d).1 = None).
      { split; intros (r0 & Hr0 & Hn).
        - apply elem_of_cons in Hr0 as [->|Hr0]; [|by eauto].
          rewrite Hg in Hn. discriminate Hn.
        - exists r0. split; [by right|done]. }
      rewrite Hrest. destruct (Qlt_bool 0 score); apply IH.
    + split; [|done]. intros _. exists r. split; [left|]. by rewrite Hg.
Qed.

End ChatFacts.

(** X15: for a non-empty request, [chat] raises exactly when the scorer
    raises on one of the candidate recipes (a single recipe row with a
    malformed quantity can make the endpoint fail); otherwise it answers with
    status 200.  In no case does it change the database. *)
Theorem X15_chat_fails_iff_a_candidate_fails (generate_content : string → string)
    (user_input : string) (d : Database) :
  String.eqb (PyStr.strip user_input) "" = false →
  let candidate_recipes := select_recipes d (taste_of_request (PyStr.strip user_input)) in
  ((chat generate_content user_input d).1 = None
   ↔ ∃ r, r ∈ candidate_recipes
          ∧ (get_feasibility_score (recipe_id r) (ingredients d) d).1 = None)
  ∧ (∀ response, (chat generate_content user_input d).1 = Some response →
                 status response = 200)
  ∧ (chat generate_content user_input d).2 = d.
Proof.
  intros Hne candidate_recipes. unfold chat. rewrite Hne.
  unfold sorted_candidates, mbind, db_mbind, db_bind.
  cbn [fetch_current_ingredients fetch_recipes]. fold candidate_recipes.
  pose proof (score_candidates_state d (ingredients d) candidate_recipes []) as Hst.
  pose proof (score_candidates_none d (ingredients d) candidate_recipes []) as Hnone.
  destruct (score_candidates candidate_recipes (ingredients d) [] d) as [[res|] d1].
  - cbn [fst snd] in Hst, Hnone. subst d1. cbn [mret db_mret db_ret].
    destruct (sort_desc res) as [|e l] eqn:Hsort.
    + cbn. split; [|split; [|done]].
      * rewrite <- Hnone. split; discriminate.
      * by intros response [= <-].
    + unfold build_chat_prompt, mbind, db_mbind, db_bind.
      rewrite text_blocks_run. cbn. split; [|split; [|done]].
      * rewrite <- Hnone. split; discriminate.
      * by intros response [= <-].
  - cbn [fst snd] in Hst, Hnone. subst d1. cbn [fst snd].
    split; [|split; [discriminate|done]].
    split; [intros _; by apply Hnone|done].
Qed.

Lemma X15_chat_fails_iff_a_candidate_fails_witness :
  let d := {| ingredients := Sample.pantry 2;
              recipes := [Sample.recipe 1 "Soup"];
              recipe_ingredients := Sample.for_recipe 1 [Sample.ri "salt" "a pinch."] |} in
  let candidate_recipes := select_recipes d (taste_of_request (PyStr.strip "something sweet")) in
  ((chat (fun prompt => prompt) "something sweet" d).1 = None
   ↔ ∃ r, r ∈ candidate_recipes
          ∧ (get_feasibility_score (recipe_id r) (ingredients d) d).1 = None)
  ∧ (∀ response, (chat (fun prompt => prompt) "something sweet" d).1 = Some response →
                 status response = 200)
  ∧ (chat (fun prompt => prompt) "something sweet" d).2 = d.
Proof.
  apply (X15_chat_fails_iff_a_candidate_fails (fun prompt => prompt) "something sweet").
  vm_compute. reflexivity.
Defined.
